(** * The yt-dlp gateway of [app.py]

    A shallow embedding of the FastAPI module [app.py]: the request models
    [YtDlpOptions] and [VideoRequest], the helper [run_yt_dlp_operation] and
    the two POST endpoints.  The file system, the logger and the external
    extraction library are the only state the module touches; they are made
    explicit in a [world] that every operation threads through.

    Python exceptions are the error half of a small state-and-error monad,
    with combinators for [try]/[except] and [try]/[finally] that follow the
    Python semantics (a [finally] block that raises replaces the pending
    outcome).  What leaves the gateway is an [HTTPException] that it raised
    itself, or an exception that it does not catch. *)

From stdpp Require Import base strings gmap list pretty.

Local Open Scope Z_scope.

(** ** Python values and dictionaries *)

(** The values that occur in the option dictionary and in the info
    dictionary.  [model_dump(exclude_none=True)] never produces [None], and a
    missing key is a missing binding of the map. *)
Inductive value : Type :=
  | VBool (b : bool)
  | VInt (z : Z)
  | VStr (s : string).

#[global] Instance value_eq_dec : EqDecision value.
Proof. solve_decision. Defined.

Abbreviation dict := (gmap string value).

(** Truth value of [d.get(k)]: a missing key gives [None], which is false;
    a string is true when it is not empty, an integer when it is not zero. *)
Definition truthy (v : option value) : bool :=
  match v with
  | None => false
  | Some (VBool b) => b
  | Some (VInt z) => negb (z =? 0)
  | Some (VStr s) => negb (String.eqb s EmptyString)
  end.

(** Name of the type of a value, as CPython prints it in a [TypeError]. *)
Definition type_name (v : value) : string :=
  match v with
  | VBool _ => "bool"
  | VInt _ => "int"
  | VStr _ => "str"
  end.

(** ** Configuration *)

Definition DOWNLOADS_DIR : string := "downloads".

(** [os.path.join] of two components on a POSIX system. *)
Definition os_path_join (a b : string) : string :=
  if String.prefix "/" b then b
  else if String.eqb a EmptyString then b
  else if String.eqb (String.substring (String.length a - 1) 1 a) "/"
       then a +:+ b
       else a +:+ "/" +:+ b.

(** ** The world: files, log and the calls made to the library *)

Inductive log_record : Type :=
  | LogUsingCookieFile (path : string)                    (* info, line 76 *)
  | LogCookieWriteFailed (e : string)                     (* error, line 78 *)
  | LogAttemptDownload (url : string) (opts : dict)       (* info, line 91 *)
  | LogDownloadComplete (url filepath : string)           (* info, line 94 *)
  | LogAttemptInfo (url : string) (opts : dict)           (* info, line 97 *)
  | LogInfoComplete (url : string)                        (* info, line 99 *)
  | LogDownloadError (url e : string)                     (* error, line 102 *)
  | LogExtractorError (url e : string)                    (* error, line 105 *)
  | LogUnexpected (url e : string)                        (* error with traceback, line 108 *)
  | LogCleanedUp (path : value)                           (* info, line 115 *)
  | LogRemoveFailed (path : value) (e : string).          (* warning, line 117 *)

Inductive log_level : Type := INFO | WARNING | ERROR.

Definition level (r : log_record) : log_level :=
  match r with
  | LogCookieWriteFailed _ | LogDownloadError _ _
  | LogExtractorError _ _ | LogUnexpected _ _ => ERROR
  | LogRemoveFailed _ _ => WARNING
  | _ => INFO
  end.

(** One construction of [yt_dlp.YoutubeDL(params)]: the mapping it was given
    and the files that existed at that moment.  The list of these is ghost
    state: the program never reads it. *)
Record invocation : Type := Invocation {
  inv_params : dict;
  inv_files : gmap string string
}.

Record world : Type := World {
  files : gmap string string;
  logs : list log_record;
  invoked : list invocation
}.

Definition set_files (f : gmap string string) (w : world) : world :=
  World f (logs w) (invoked w).

(** ** Exceptions and the monad *)

(** What the operating system and the file object raise. *)
Inductive os_exn : Type :=
  | OSError (msg : string)
  | TypeError (msg : string).

Definition os_exn_str (e : os_exn) : string :=
  match e with OSError m => m | TypeError m => m end.

(** What a call to the extraction library ends with at the call site when
    it does not return: the two recognized classes of [yt_dlp.utils], any
    other subclass of [Exception], or an exception that is not an
    [Exception] at all ([asyncio.CancelledError] raised at the [await] of
    lines 92 and 98, [KeyboardInterrupt] or [SystemExit] coming out of the
    worker).  Each carries [str(e)]. *)
Inductive yt_exn : Type :=
  | DownloadError (msg : string)
  | ExtractorError (msg : string)
  | OtherException (msg : string)
  | BaseExc (msg : string).

(** [fastapi.HTTPException(status_code, detail)]. *)
Record http_exn : Type := HTTPException {
  status_code : Z;
  detail : string
}.

(** What can leave the gateway: an [HTTPException] of its own, an exception
    of the library that [except Exception] does not catch, or the
    [OverflowError] that [os.path.exists] raises in the [finally] block. *)
Inductive exn : Type :=
  | Http (h : http_exn)
  | BaseException (msg : string)
  | OverflowError (msg : string).

Definition M (E A : Type) : Type := world → (E + A) * world.

Definition ret {E A} (a : A) : M E A := λ w, (inr a, w).

Definition raise {E A} (e : E) : M E A := λ w, (inl e, w).

Definition bind {E A B} (m : M E A) (k : A → M E B) : M E B :=
  λ w, match m w with
       | (inl e, w1) => (inl e, w1)
       | (inr a, w1) => k a w1
       end.

(** [try: m  except E1 as e: h e] *)
Definition try_except {E1 E2 A} (m : M E1 A) (h : E1 → M E2 A) : M E2 A :=
  λ w, match m w with
       | (inl e, w1) => h e w1
       | (inr a, w1) => (inr a, w1)
       end.

(** [try: m  finally: fin].  The block [fin] always runs; when it raises,
    its exception takes the place of the outcome of [m]. *)
Definition try_finally {E A} (m : M E A) (fin : M E unit) : M E A :=
  λ w, let '(r, w1) := m w in
       match fin w1 with
       | (inl e, w2) => (inl e, w2)
       | (inr _, w2) => (r, w2)
       end.

Notation "x <- m ;; k" := (bind m (λ x, k))
  (at level 100, m at next level, right associativity).
Notation "m ;;; k" := (bind m (λ _, k))
  (at level 100, right associativity).

Definition log {E} (r : log_record) : M E unit :=
  λ w, (inr tt, World (files w) (logs w ++ [r]) (invoked w)).

(** ** The operating system *)

(** The process and the behaviour of the system calls during one gateway
    call.  Each of [open], [write], [os.stat] and [os.remove] is made at most
    once per call; [Some msg] means that the call raises with that message,
    and [stat_error] that [os.stat] of a path is refused with an [OSError].
    [fd_open] says which integers are open file descriptors: [os.path.exists]
    accepts an integer and then answers for the descriptor. *)
Record os_env : Type := OsEnv {
  getpid : N;
  open_error : option string;
  write_error : option string;
  remove_error : option string;
  stat_error : bool;
  fd_open : Z → bool
}.

(** [open(path, 'w')]: creates the file, or empties the one that exists. *)
Definition os_open_w (env : os_env) (path : string) : M os_exn unit :=
  match open_error env with
  | Some msg => raise (OSError msg)
  | None => λ w, (inr tt, set_files (<[path := EmptyString]> (files w)) w)
  end.

(** [f.write(v)] followed by the close at the end of the [with] block.  Only
    a [str] can be written to a text file; a failed write leaves the file as
    [open] made it. *)
Definition file_write (env : os_env) (path : string) (v : value) : M os_exn unit :=
  match v with
  | VStr s =>
      match write_error env with
      | Some msg => raise (OSError msg)
      | None => λ w, (inr tt, set_files (<[path := s]> (files w)) w)
      end
  | _ => raise (TypeError ("write() argument must be str, not " +:+ type_name v))
  end.

(** An integer that fits the C [int] of a file descriptor. *)
Definition fd_in_range (z : Z) : bool := (-2147483648 <=? z) && (z <=? 2147483647).

Definition fd_overflow_msg (z : Z) : string :=
  if z <? 0 then "fd is less than minimum" else "fd is greater than maximum".

(** [os.path.exists(v)] is [os.stat(v)] with [OSError] and [ValueError]
    turned into [False].  For a path the answer is false when [os.stat] is
    refused, even if the file is there.  A bool is an integer in Python, and
    an integer is taken as a file descriptor: one that does not fit a C
    [int] makes [os.stat] raise [OverflowError], which [os.path.exists]
    lets through. *)
Definition os_path_exists (env : os_env) (v : value) : M exn bool :=
  λ w, match v with
       | VStr p =>
           (inr (negb (stat_error env) && bool_decide (is_Some (files w !! p))), w)
       | VInt z =>
           if fd_in_range z then (inr (fd_open env z), w)
           else (inl (OverflowError (fd_overflow_msg z)), w)
       | VBool b => (inr (fd_open env (if b then 1 else 0)), w)
       end.

(** [os.remove(v)]: only a path can be removed. *)
Definition os_remove (env : os_env) (v : value) : M os_exn unit :=
  match v with
  | VStr p =>
      match remove_error env with
      | Some msg => raise (OSError msg)
      | None => λ w, (inr tt, set_files (delete p (files w)) w)
      end
  | _ => raise (TypeError ("remove: path should be string, bytes or os.PathLike, not "
                           +:+ type_name v))
  end.

(** ** The extraction library *)

(** The library is an opaque collaborator: any behaviour of its four entry
    points is allowed.  Each may raise, and each may change the files.  The
    mapping is handed over by reference; the library is taken to leave the
    entries that the gateway reads afterwards ([cookiefile]) as they are, so
    the gateway keeps using the mapping it built. *)
Definition lib (A : Type) : Type :=
  gmap string string → (yt_exn + A) * gmap string string.

Record YoutubeDL : Type := {
  (* [yt_dlp.YoutubeDL(params)] and [__enter__] *)
  ydl_enter : dict → lib unit;
  (* [ydl.extract_info(url, download=...)] *)
  extract_info : dict → string → bool → lib dict;
  (* [ydl.prepare_filename(info)] *)
  prepare_filename : dict → dict → lib string;
  (* [__exit__], which never swallows the exception of the block *)
  ydl_exit : dict → lib unit
}.

Definition call {A} (op : lib A) : M yt_exn A :=
  λ w, let '(r, f) := op (files w) in (r, set_files f w).

Definition record_invocation {E} (params : dict) : M E unit :=
  λ w, (inr tt, World (files w) (logs w)
                      (invoked w ++ [Invocation params (files w)])).

(** [with yt_dlp.YoutubeDL(params) as ydl: body].  [__exit__] runs however
    the body ends, and an exception it raises replaces the outcome. *)
Definition with_YoutubeDL {A} (ydl : YoutubeDL) (params : dict)
    (body : M yt_exn A) : M yt_exn A :=
  record_invocation params ;;;
  call (ydl_enter ydl params) ;;;
  try_finally body (call (ydl_exit ydl params)).

(** ** Responses *)

Inductive response : Type :=
  | DownloadResponse (message : string) (title : option value)
                     (filepath : string) (extractor : option value)
  | InfoResponse (message : string) (info : dict).

(** ** [run_yt_dlp_operation] *)

(** Line 71. *)
Definition cookie_file_path (env : os_env) : string :=
  os_path_join DOWNLOADS_DIR ("cookies_" +:+ pretty (getpid env) +:+ ".txt").

(** Lines 66-79: the credential string is moved to a file. *)
Definition stage_cookies (env : os_env) (final_ydl_opts : dict) : M exn dict :=
  if truthy (final_ydl_opts !! "cookies") then
    match final_ydl_opts !! "cookies" with
    | None => ret final_ydl_opts
    | Some cookies_str =>
        let popped := delete "cookies" final_ydl_opts in
        let cookie_file_path := cookie_file_path env in
        try_except
          (os_open_w env cookie_file_path ;;;
           file_write env cookie_file_path cookies_str ;;;
           log (LogUsingCookieFile cookie_file_path) ;;;
           ret (<["cookiefile" := VStr cookie_file_path]> popped))
          (λ e,
             log (LogCookieWriteFailed (os_exn_str e)) ;;;
             raise (Http (HTTPException 500 "Failed to process cookies.")))
    end
  else ret final_ydl_opts.

(** Lines 82-83. *)
Definition drop_verbose (final_ydl_opts : dict) : dict :=
  if negb (truthy (final_ydl_opts !! "verbose"))
  then delete "verbose" final_ydl_opts
  else final_ydl_opts.

(** Lines 88-100: the body of the [try]. *)
Definition try_body (ydl : YoutubeDL) (url : string) (final_ydl_opts : dict)
    (download : bool) : M yt_exn response :=
  with_YoutubeDL ydl final_ydl_opts
    (if download then
       log (LogAttemptDownload url final_ydl_opts) ;;;
       info <- call (extract_info ydl final_ydl_opts url true) ;;
       filepath <- call (prepare_filename ydl final_ydl_opts info) ;;
       log (LogDownloadComplete url filepath) ;;;
       ret (DownloadResponse "Video downloaded successfully!"
              (info !! "title") filepath (info !! "extractor"))
     else
       log (LogAttemptInfo url final_ydl_opts) ;;;
       info <- call (extract_info ydl final_ydl_opts url false) ;;
       log (LogInfoComplete url) ;;;
       ret (InfoResponse "Metadata extracted successfully!" info)).

(** Lines 101-109: the three [except] clauses.  The last one is
    [except Exception]: an exception that is not an [Exception] matches no
    clause and goes on as it is. *)
Definition handlers (url : string) (e : yt_exn) : M exn response :=
  match e with
  | DownloadError msg =>
      log (LogDownloadError url msg) ;;;
      raise (Http (HTTPException 400 ("Download error: " +:+ msg)))
  | ExtractorError msg =>
      log (LogExtractorError url msg) ;;;
      raise (Http (HTTPException 400
               ("Extractor error (e.g., unsupported URL, video unavailable): " +:+ msg)))
  | OtherException msg =>
      log (LogUnexpected url msg) ;;;
      raise (Http (HTTPException 500 ("An unexpected server error occurred: " +:+ msg)))
  | BaseExc msg => raise (BaseException msg)
  end.

(** Lines 110-117: the [finally] block.  The test of line 112 is outside
    the inner [try]. *)
Definition cleanup (env : os_env) (final_ydl_opts : dict) : M exn unit :=
  match final_ydl_opts !! "cookiefile" with
  | None => ret tt
  | Some cookiefile =>
      present <- os_path_exists env cookiefile ;;
      if present : bool then
        try_except
          (os_remove env cookiefile ;;;
           log (LogCleanedUp cookiefile))
          (λ e, log (LogRemoveFailed cookiefile (os_exn_str e)))
      else ret tt
  end.

(** Lines 58-117. *)
Definition run_yt_dlp_operation (env : os_env) (ydl : YoutubeDL)
    (url : string) (ydl_options : dict) (download : bool) : M exn response :=
  final_ydl_opts <- stage_cookies env ydl_options ;;
  let final_ydl_opts := drop_verbose final_ydl_opts in
  try_finally
    (try_except (try_body ydl url final_ydl_opts download) (handlers url))
    (cleanup env final_ydl_opts).

(** ** The request models *)

Record YtDlpOptions : Type := {
  format : string;
  outtmpl : string;
  noplaylist : bool;
  nocheckcertificate : bool;
  retries : Z;
  extractor_retries : Z;
  verbose : bool;
  cookies : option string
}.

Record VideoRequest : Type := {
  url : string;
  options : YtDlpOptions
}.

(** The body of a POST request after JSON decoding: every field is absent
    ([None]) or present with a value of its declared type.  For [cookies],
    an explicit [null] and an absent field are both [None]. *)
Record options_payload : Type := {
  p_format : option string;
  p_outtmpl : option string;
  p_noplaylist : option bool;
  p_nocheckcertificate : option bool;
  p_retries : option Z;
  p_extractor_retries : option Z;
  p_verbose : option bool;
  p_cookies : option string
}.

Record payload : Type := {
  p_url : option string;
  p_options : option options_payload
}.

(** A pydantic validation error: the location of the offending field and
    the kind of error. *)
Record ValidationError : Type := {
  loc : list string;
  err_type : string
}.

(** The constructor of [YtDlpOptions], lines 34-46: a field that is not supplied
    takes the default of its [Field(...)]; no field carries a constraint. *)
Definition validate_options (p : options_payload) : YtDlpOptions := {|
  format := default "bestvideo[ext=mp4]+bestaudio[ext=m4a]/best[ext=mp4]/best" (p_format p);
  outtmpl := default (os_path_join DOWNLOADS_DIR "%(title)s.%(ext)s") (p_outtmpl p);
  noplaylist := default true (p_noplaylist p);
  nocheckcertificate := default true (p_nocheckcertificate p);
  retries := default 5 (p_retries p);
  extractor_retries := default 5 (p_extractor_retries p);
  verbose := default false (p_verbose p);
  cookies := p_cookies p
|}.

(** [YtDlpOptions()], the default of the [options] field (line 55). *)
Definition default_options : YtDlpOptions :=
  validate_options {|
    p_format := None; p_outtmpl := None; p_noplaylist := None;
    p_nocheckcertificate := None; p_retries := None;
    p_extractor_retries := None; p_verbose := None; p_cookies := None |}.

(** The constructor of [VideoRequest], lines 54-55: [url] is required ([Field(...)]). *)
Definition validate_request (p : payload) : ValidationError + VideoRequest :=
  match p_url p with
  | None => inl {| loc := ["body"; "url"]; err_type := "missing" |}
  | Some u =>
      inr {| url := u;
             options := match p_options p with
                        | None => default_options
                        | Some o => validate_options o
                        end |}
  end.

(** [options.model_dump(exclude_none=True)]. *)
Definition model_dump (o : YtDlpOptions) : dict :=
  let d : dict :=
    <["format" := VStr (format o)]>
    (<["outtmpl" := VStr (outtmpl o)]>
    (<["noplaylist" := VBool (noplaylist o)]>
    (<["nocheckcertificate" := VBool (nocheckcertificate o)]>
    (<["retries" := VInt (retries o)]>
    (<["extractor_retries" := VInt (extractor_retries o)]>
    (<["verbose" := VBool (verbose o)]> ∅)))))) in
  match cookies o with
  | None => d
  | Some c => <["cookies" := VStr c]> d
  end.

(** ** The endpoints *)

(** Lines 135-140. *)
Definition get_video_info (env : os_env) (ydl : YoutubeDL)
    (request : VideoRequest) : M exn response :=
  run_yt_dlp_operation env ydl (url request) (model_dump (options request)) false.

(** Lines 142-150. *)
Definition download_video (env : os_env) (ydl : YoutubeDL)
    (request : VideoRequest) : M exn response :=
  run_yt_dlp_operation env ydl (url request) (model_dump (options request)) true.

(** What FastAPI does with a POST body for an endpoint that declares
    [request: VideoRequest]: the body is validated first, and the endpoint is
    called only with a valid request. *)
Definition post (endpoint : VideoRequest → M exn response) (body : payload)
    : M (ValidationError + exn) response :=
  match validate_request body with
  | inl e => raise (inl e)
  | inr request => try_except (endpoint request) (λ e, raise (inr e))
  end.

(** ** Vocabulary of the statements *)

(** [sub] occurs in [s]. *)
Definition includes (s sub : string) : Prop :=
  ∃ pre post, s = pre +:+ sub +:+ post.

(** The outcome of the [with] block of one gateway call: [None] when the call
    ends before the block is reached. *)
Definition library_outcome (env : os_env) (ydl : YoutubeDL) (url : string)
    (ydl_options : dict) (download : bool) (w : world) : option (yt_exn + response) :=
  match stage_cookies env ydl_options w with
  | (inl _, _) => None
  | (inr final_ydl_opts, w1) =>
      Some (try_body ydl url (drop_verbose final_ydl_opts) download w1).1
  end.

Definition with_remove_error (r : option string) (env : os_env) : os_env :=
  OsEnv (getpid env) (open_error env) (write_error env) r (stat_error env) (fd_open env).

(** The exception that the test of line 112 raises for a mapping, if any. *)
Definition cleanup_raises (params : dict) : option exn :=
  match params !! "cookiefile" with
  | Some (VInt z) =>
      if fd_in_range z then None else Some (OverflowError (fd_overflow_msg z))
  | _ => None
  end.

(** A library whose every call succeeds and leaves the files alone. *)
Definition ydl_ok (info : dict) (filepath : string) : YoutubeDL := {|
  ydl_enter := λ _ f, (inr tt, f);
  extract_info := λ _ _ _ f, (inr info, f);
  prepare_filename := λ _ _ f, (inr filepath, f);
  ydl_exit := λ _ f, (inr tt, f)
|}.

(** A library whose [extract_info] raises [e]. *)
Definition ydl_raising (e : yt_exn) : YoutubeDL := {|
  ydl_enter := λ _ f, (inr tt, f);
  extract_info := λ _ _ _ f, (inl e, f);
  prepare_filename := λ _ _ f, (inr EmptyString, f);
  ydl_exit := λ _ f, (inr tt, f)
|}.

(** A library whose [extract_info] raises [e] and whose [__exit__] then
    raises [e']. *)
Definition ydl_raising_twice (e e' : yt_exn) : YoutubeDL := {|
  ydl_enter := λ _ f, (inr tt, f);
  extract_info := λ _ _ _ f, (inl e, f);
  prepare_filename := λ _ _ f, (inr EmptyString, f);
  ydl_exit := λ _ f, (inl e', f)
|}.

(** A system in which no call fails and no integer is an open descriptor. *)
Definition env_ok (pid : N) : os_env := OsEnv pid None None None false (λ _, false).

(** The same system with a full disk: [open] works, the write fails. *)
Definition env_disk_full (pid : N) : os_env :=
  OsEnv pid None (Some "[Errno 28] No space left on device") None false (λ _, false).

Definition w0 : world := World ∅ [] [].

(** ** Statements that are checked against the code *)

(** After a call that staged a credential file, the file is gone, whatever
    the system calls did in the meantime. *)
Definition staged_file_always_removed : Prop :=
  ∀ env ydl url (opts : dict) download w c,
    opts !! "cookies" = Some (VStr c) → c ≠ EmptyString →
    open_error env = None → write_error env = None →
    files (run_yt_dlp_operation env ydl url opts download w).2
      !! cookie_file_path env = None.

(** An unrecognized exception gives status 500 with a detail in which the
    message of the exception does not occur. *)
Definition unexpected_detail_is_generic : Prop :=
  ∀ env ydl url (opts : dict) download w msg,
    msg ≠ EmptyString →
    library_outcome env ydl url opts download w = Some (inl (OtherException msg)) →
    ∃ d, (run_yt_dlp_operation env ydl url opts download w).1
           = inl (Http (HTTPException 500 d))
         ∧ ¬ includes d msg.

(** Whenever [extract_info] raises a download error or an extractor error,
    the gateway answers with status 400 and a detail that includes the
    message. *)
Definition extractor_errors_give_400 : Prop :=
  ∀ env ydl url (opts final : dict) download w w1 f1 f2 e msg,
    e = DownloadError msg ∨ e = ExtractorError msg →
    stage_cookies env opts w = (inr final, w1) →
    ydl_enter ydl (drop_verbose final) (files w1) = (inr tt, f1) →
    extract_info ydl (drop_verbose final) url download f1 = (inl e, f2) →
    ∃ d, (run_yt_dlp_operation env ydl url opts download w).1
           = inl (Http (HTTPException 400 d))
         ∧ includes d msg.

(** A body is rejected by the request model. *)
Definition rejected (p : payload) : Prop :=
  ∃ e, validate_request p = inl e.

(** A body supplies a negative retry count. *)
Definition negative_retry_count (p : payload) : Prop :=
  ∃ o z, p_options p = Some o
         ∧ (p_retries o = Some z ∨ p_extractor_retries o = Some z)
         ∧ z < 0.

(** A body is rejected exactly when it has no URL or a negative retry
    count. *)
Definition rejects_missing_url_or_negative_retries : Prop :=
  ∀ p, rejected p ↔ (p_url p = None ∨ negative_retry_count p).

(** Any two calls that are in flight together and both carry a credential
    string stage it under different paths.  The calls of one server run in
    one process, so they share [env]. *)
Definition staged_paths_pairwise_distinct : Prop :=
  ∀ env (opts1 opts2 final1 final2 : dict) w w1 w2,
    stage_cookies env opts1 w = (inr final1, w1) →
    stage_cookies env opts2 w1 = (inr final2, w2) →
    truthy (opts1 !! "cookies") = true →
    truthy (opts2 !! "cookies") = true →
    final1 !! "cookiefile" ≠ final2 !! "cookiefile".

(** ** Libraries and worlds used in further statements *)

(** The library leaves every file as it is. *)
Definition keeps_files (ydl : YoutubeDL) : Prop :=
  (∀ params f, (ydl_enter ydl params f).2 = f)
  ∧ (∀ params url download f, (extract_info ydl params url download f).2 = f)
  ∧ (∀ params info f, (prepare_filename ydl params info f).2 = f)
  ∧ (∀ params f, (ydl_exit ydl params f).2 = f).

(** Two libraries that behave alike in everything a metadata request can
    reach: construction, [extract_info] with [download=False], and exit. *)
Definition agree_on_info (ydl ydl' : YoutubeDL) : Prop :=
  (∀ params f, ydl_enter ydl params f = ydl_enter ydl' params f)
  ∧ (∀ params url f,
       extract_info ydl params url false f = extract_info ydl' params url false f)
  ∧ (∀ params f, ydl_exit ydl params f = ydl_exit ydl' params f).


(** A library that serves metadata and fails at everything a download
    needs; the failed download also leaves a partial file. *)
Definition ydl_info_only (info : dict) : YoutubeDL := {|
  ydl_enter := λ _ f, (inr tt, f);
  extract_info := λ _ _ download f,
    if download then (inl (DownloadError "no download"), <["downloads/partial" := "x"]> f)
    else (inr info, f);
  prepare_filename := λ _ _ f, (inl (OtherException "no filename"), f);
  ydl_exit := λ _ f, (inr tt, f)
|}.

(** A world with one file. *)
Definition w_file (path content : string) : world :=
  World {[ path := content ]} [] [].

(** An error record was logged. *)
Definition has_error (l : list log_record) : Prop :=
  ∃ r, r ∈ l ∧ level r = ERROR.

(** No record of the list is an error record. *)
Definition no_error (l : list log_record) : Prop :=
  Forall (λ r, level r ≠ ERROR) l.

(** The mapping of an invocation carries the fields of the request options,
    apart from [verbose] and [cookies], which the gateway rewrites. *)
Definition options_reach (o : YtDlpOptions) (i : invocation) : Prop :=
  inv_params i !! "format" = Some (VStr (format o))
  ∧ inv_params i !! "outtmpl" = Some (VStr (outtmpl o))
  ∧ inv_params i !! "noplaylist" = Some (VBool (noplaylist o))
  ∧ inv_params i !! "nocheckcertificate" = Some (VBool (nocheckcertificate o))
  ∧ inv_params i !! "retries" = Some (VInt (retries o))
  ∧ inv_params i !! "extractor_retries" = Some (VInt (extractor_retries o)).

(** * Properties *)

(** ** The staging step *)

Lemma truthy_str (c : string) : c ≠ EmptyString → truthy (Some (VStr c)) = true.
Proof.
  intros Hc. simpl. destruct (String.eqb_spec c EmptyString); [contradiction | reflexivity].
Qed.

Lemma stage_cookies_skip env (opts : dict) w :
  truthy (opts !! "cookies") = false →
  stage_cookies env opts w = (inr opts, w).
Proof. intros H. unfold stage_cookies. now rewrite H. Qed.

Lemma stage_cookies_written env (opts : dict) w c :
  opts !! "cookies" = Some (VStr c) → c ≠ EmptyString →
  open_error env = None → write_error env = None →
  stage_cookies env opts w =
    (inr (<["cookiefile" := VStr (cookie_file_path env)]> (delete "cookies" opts)),
     World (<[cookie_file_path env := c]> (<[cookie_file_path env := EmptyString]> (files w)))
           (logs w ++ [LogUsingCookieFile (cookie_file_path env)])
           (invoked w)).
Proof.
  intros Hc Hne Ho Hw. unfold stage_cookies.
  rewrite Hc, (truthy_str c Hne).
  unfold try_except, bind, os_open_w, file_write, log, ret, set_files.
  now rewrite Ho, Hw.
Qed.

(** Whatever it does, the staging step never calls the library. *)
Lemma stage_cookies_invoked env (opts : dict) w :
  invoked (stage_cookies env opts w).2 = invoked w.
Proof.
  unfold stage_cookies.
  destruct (truthy (opts !! "cookies")); [| reflexivity].
  destruct (opts !! "cookies") as [v|]; [| reflexivity].
  unfold try_except, bind, os_open_w, file_write, log, ret, raise, set_files.
  destruct (open_error env); [reflexivity |].
  destruct v; simpl; try reflexivity.
  destruct (write_error env); reflexivity.
Qed.

(** When the staging step returns for a credential string, the string is in
    the staged file and the mapping names the file instead of the string. *)
Lemma stage_cookies_returns env (opts final : dict) w w1 c :
  opts !! "cookies" = Some (VStr c) → c ≠ EmptyString →
  stage_cookies env opts w = (inr final, w1) →
  final = <["cookiefile" := VStr (cookie_file_path env)]> (delete "cookies" opts)
  ∧ files w1 !! cookie_file_path env = Some c.
Proof.
  intros Hc Hne. unfold stage_cookies.
  rewrite Hc, (truthy_str c Hne).
  unfold try_except, bind, os_open_w, file_write, log, ret, raise, set_files.
  destruct (open_error env); [discriminate |].
  destruct (write_error env); [discriminate |].
  simpl. intros [= <- <-]. simpl. split; [reflexivity |].
  apply lookup_insert_eq.
Qed.

(** ** The [with] block and the handlers *)

Lemma try_body_invoked ydl url (params : dict) download w :
  invoked (try_body ydl url params download w).2
  = invoked w ++ [Invocation params (files w)].
Proof.
  unfold try_body, with_YoutubeDL, try_finally, bind, record_invocation,
    call, log, ret, set_files. simpl.
  destruct (ydl_enter ydl params (files w)) as [[e|[]] f0]; [reflexivity |].
  destruct download; simpl.
  - destruct (extract_info ydl params url true f0) as [[e|info] f1]; simpl.
    + destruct (ydl_exit ydl params f1) as [[e'|[]] f2]; reflexivity.
    + destruct (prepare_filename ydl params info f1) as [[e|fp] f2]; simpl;
        destruct (ydl_exit ydl params f2) as [[e'|[]] f3]; reflexivity.
  - destruct (extract_info ydl params url false f0) as [[e|info] f1]; simpl;
      destruct (ydl_exit ydl params f1) as [[e'|[]] f2]; reflexivity.
Qed.

Lemma handlers_world url e w :
  invoked (handlers url e w).2 = invoked w ∧ files (handlers url e w).2 = files w.
Proof. destruct e; split; reflexivity. Qed.

Lemma guarded_invoked ydl url (params : dict) download w :
  invoked (try_except (try_body ydl url params download) (handlers url) w).2
  = invoked w ++ [Invocation params (files w)].
Proof.
  pose proof (try_body_invoked ydl url params download w) as H.
  unfold try_except.
  destruct (try_body ydl url params download w) as [[e|r] w1]; simpl in *.
  - now rewrite (proj1 (handlers_world url e w1)).
  - exact H.
Qed.

(** ** The [finally] block *)

(** The block raises only what the test of line 112 raises: nothing raised
    by [os.remove] leaves it. *)
Lemma cleanup_outcome env (params : dict) w :
  (cleanup env params w).1
  = match cleanup_raises params with Some e => inl e | None => inr tt end.
Proof.
  unfold cleanup, cleanup_raises.
  destruct (params !! "cookiefile") as [v|]; [| reflexivity].
  unfold bind, os_path_exists, try_except, os_remove, log, raise, ret, set_files.
  destruct v as [b|z|p]; simpl.
  - destruct (fd_open env _); reflexivity.
  - destruct (fd_in_range z); [| reflexivity].
    destruct (fd_open env z); reflexivity.
  - destruct (_ && _); [| reflexivity].
    destruct (remove_error env); reflexivity.
Qed.

Lemma cleanup_returns env (params : dict) w :
  cleanup_raises params = None → (cleanup env params w).1 = inr tt.
Proof. intros H. now rewrite cleanup_outcome, H. Qed.

Lemma cleanup_raises_str (params : dict) p :
  params !! "cookiefile" = Some (VStr p) → cleanup_raises params = None.
Proof. intros H. unfold cleanup_raises. now rewrite H. Qed.

Lemma cleanup_raises_none (params : dict) :
  params !! "cookiefile" = None → cleanup_raises params = None.
Proof. intros H. unfold cleanup_raises. now rewrite H. Qed.

Lemma cleanup_invoked env (params : dict) w :
  invoked (cleanup env params w).2 = invoked w.
Proof.
  unfold cleanup.
  destruct (params !! "cookiefile") as [v|]; [| reflexivity].
  unfold bind, os_path_exists, try_except, os_remove, log, raise, ret, set_files.
  destruct v as [b|z|p]; simpl.
  - destruct (fd_open env _); reflexivity.
  - destruct (fd_in_range z); [| reflexivity].
    destruct (fd_open env z); reflexivity.
  - destruct (_ && _); [| reflexivity].
    destruct (remove_error env); reflexivity.
Qed.

(** With no file at the path there is nothing to do. *)
Lemma cleanup_absent env (params : dict) p w :
  params !! "cookiefile" = Some (VStr p) → files w !! p = None →
  cleanup env params w = (inr tt, w).
Proof.
  intros Hp Hf. unfold cleanup. rewrite Hp.
  unfold bind, os_path_exists. simpl.
  rewrite (bool_decide_eq_false_2 (is_Some (files w !! p))).
  - now rewrite andb_false_r.
  - rewrite Hf. intros [x Hx]. discriminate.
Qed.

(** When [os.stat] is refused the block does not see the file and leaves
    it. *)
Lemma cleanup_blind env (params : dict) p w :
  params !! "cookiefile" = Some (VStr p) → stat_error env = true →
  cleanup env params w = (inr tt, w).
Proof.
  intros Hp Hs. unfold cleanup. rewrite Hp.
  unfold bind, os_path_exists. simpl. now rewrite Hs.
Qed.

(** When the file is seen and [os.remove] works, the file is removed and
    the removal logged. *)
Lemma cleanup_removed env (params : dict) p w :
  params !! "cookiefile" = Some (VStr p) → stat_error env = false →
  remove_error env = None → is_Some (files w !! p) →
  cleanup env params w
  = (inr tt, World (delete p (files w)) (logs w ++ [LogCleanedUp (VStr p)]) (invoked w)).
Proof.
  intros Hp Hs Hr Hf. unfold cleanup. rewrite Hp.
  unfold bind, os_path_exists, try_except, os_remove, log, ret, set_files. simpl.
  rewrite Hs, (bool_decide_eq_true_2 _ Hf), Hr. reflexivity.
Qed.

(** When the file is seen and [os.remove] raises, the failure is logged as
    a warning and nothing else happens. *)
Lemma cleanup_failed env (params : dict) p w m :
  params !! "cookiefile" = Some (VStr p) → stat_error env = false →
  remove_error env = Some m → is_Some (files w !! p) →
  cleanup env params w
  = (inr tt, World (files w) (logs w ++ [LogRemoveFailed (VStr p) m]) (invoked w)).
Proof.
  intros Hp Hs Hr Hf. unfold cleanup. rewrite Hp.
  unfold bind, os_path_exists, try_except, os_remove, log, raise, ret, set_files. simpl.
  rewrite Hs, (bool_decide_eq_true_2 _ Hf), Hr. reflexivity.
Qed.

(** When the file can be seen and [os.remove] works, the file is gone
    afterwards. *)
Lemma cleanup_removes env (params : dict) p w :
  params !! "cookiefile" = Some (VStr p) → stat_error env = false →
  remove_error env = None →
  files (cleanup env params w).2 !! p = None.
Proof.
  intros Hp Hs Hr.
  destruct (files w !! p) as [c|] eqn:Hf.
  - rewrite (cleanup_removed env params p w Hp Hs Hr) by (rewrite Hf; eauto).
    simpl. apply lookup_delete_eq.
  - now rewrite (cleanup_absent env params p w Hp Hf).
Qed.

(** Running the block a second time changes no file. *)
Lemma cleanup_twice env (params : dict) w :
  files (cleanup env params (cleanup env params w).2).2
  = files (cleanup env params w).2.
Proof.
  unfold cleanup.
  destruct (params !! "cookiefile") as [v|]; [| reflexivity].
  unfold bind, os_path_exists, try_except, os_remove, log, raise, ret, set_files.
  destruct v as [b|z|p]; simpl.
  - destruct (fd_open env _); reflexivity.
  - destruct (fd_in_range z); [| reflexivity].
    destruct (fd_open env z); reflexivity.
  - destruct (stat_error env); simpl; [reflexivity |].
    destruct (bool_decide (is_Some (files w !! p))) eqn:Hex; simpl.
    + destruct (remove_error env); simpl.
      * rewrite Hex. reflexivity.
      * rewrite bool_decide_eq_false_2; [reflexivity |].
        rewrite lookup_delete_eq. intros [x Hx]. discriminate.
    + rewrite Hex. reflexivity.
Qed.

(** ** The gateway as a whole *)

(** The call ends at the staging step, or its world is the one the
    [finally] block left and its outcome the one that the guarded block
    produced, unless the [finally] block itself raised. *)
Lemma run_yt_dlp_operation_unfold env ydl url (opts : dict) download w :
  run_yt_dlp_operation env ydl url opts download w =
  match stage_cookies env opts w with
  | (inl e, w1) => (inl e, w1)
  | (inr final, w1) =>
      let g := try_except (try_body ydl url (drop_verbose final) download)
                 (handlers url) w1 in
      (match cleanup_raises final with Some e => inl e | None => g.1 end,
       (cleanup env (drop_verbose final) g.2).2)
  end.
Proof.
  unfold run_yt_dlp_operation, bind.
  destruct (stage_cookies env opts w) as [[e|final] w1]; [reflexivity |].
  unfold try_finally.
  destruct (try_except _ _ w1) as [r w2]. simpl.
  pose proof (cleanup_outcome env (drop_verbose final) w2) as Hc.
  assert (Hd : cleanup_raises (drop_verbose final) = cleanup_raises final).
  { unfold cleanup_raises, drop_verbose.
    destruct (negb _); [| reflexivity].
    now rewrite lookup_delete_ne by discriminate. }
  rewrite Hd in Hc.
  destruct (cleanup env (drop_verbose final) w2) as [[e|[]] w3]; simpl in *;
    destruct (cleanup_raises final); congruence.
Qed.

(** The library is called at most once, with the mapping and the files that
    the staging step left. *)
Lemma run_yt_dlp_operation_invoked env ydl url (opts : dict) download w :
  invoked (run_yt_dlp_operation env ydl url opts download w).2 =
  invoked w ++
  match stage_cookies env opts w with
  | (inl _, _) => []
  | (inr final, w1) => [Invocation (drop_verbose final) (files w1)]
  end.
Proof.
  rewrite run_yt_dlp_operation_unfold.
  pose proof (stage_cookies_invoked env opts w) as Hs.
  destruct (stage_cookies env opts w) as [[e|final] w1]; simpl in *.
  - rewrite Hs. now rewrite app_nil_r.
  - rewrite cleanup_invoked, guarded_invoked. now rewrite Hs.
Qed.

Lemma drop_verbose_lookup_ne (d : dict) k :
  k ≠ "verbose" → drop_verbose d !! k = d !! k.
Proof.
  intros Hk. unfold drop_verbose.
  destruct (negb _); [| reflexivity].
  apply lookup_delete_ne. congruence.
Qed.

Lemma drop_verbose_lookup (d : dict) :
  drop_verbose d !! "verbose"
  = if truthy (d !! "verbose") then d !! "verbose" else None.
Proof.
  unfold drop_verbose.
  destruct (truthy (d !! "verbose")); simpl; [reflexivity |].
  apply lookup_delete_eq.
Qed.

(** ** Staged file names *)

Lemma string_length_app (a b : string) :
  String.length (a +:+ b) = (String.length a + String.length b)%nat.
Proof. induction a as [|ch a IH]; simpl; [reflexivity | now rewrite IH]. Qed.

Lemma string_app_inv_tail (a b s : string) : a +:+ s = b +:+ s → a = b.
Proof.
  revert b. induction a as [|ch a IH]; intros [|ch' b] H; simpl in H.
  - reflexivity.
  - apply (f_equal String.length) in H.
    rewrite !string_length_app in H. simpl in H. lia.
  - apply (f_equal String.length) in H.
    rewrite !string_length_app in H. simpl in H. lia.
  - injection H as -> H. f_equal. now apply IH.
Qed.

Lemma cookie_file_path_eq env :
  cookie_file_path env = "downloads/cookies_" +:+ pretty (getpid env) +:+ ".txt".
Proof. reflexivity. Qed.

(** X16: the staged path depends on the process id and on nothing else:
    two processes stage under the same path exactly when they have the same
    process id. *)
Lemma cookie_file_path_inj env1 env2 :
  cookie_file_path env1 = cookie_file_path env2 ↔ getpid env1 = getpid env2.
Proof.
  split.
  - rewrite !cookie_file_path_eq. intros H.
    apply (inj (String.app "downloads/cookies_")) in H.
    apply string_app_inv_tail in H.
    now apply (inj pretty) in H.
  - unfold cookie_file_path. now intros ->.
Qed.

(** The staging step raises one exception only, and logs the cause. *)
Lemma stage_cookies_raises env (opts : dict) w e w1 :
  stage_cookies env opts w = (inl e, w1) →
  e = Http (HTTPException 500 "Failed to process cookies.")
  ∧ invoked w1 = invoked w
  ∧ ∃ m, logs w1 = logs w ++ [LogCookieWriteFailed m].
Proof.
  unfold stage_cookies.
  destruct (truthy (opts !! "cookies")); [| discriminate].
  destruct (opts !! "cookies") as [v|]; [| discriminate].
  unfold try_except, bind, os_open_w, file_write, log, ret, raise, set_files.
  destruct (open_error env) as [m|].
  - intros [= <- <-]. simpl. eauto.
  - destruct v as [b|z|c]; simpl.
    + intros [= <- <-]. simpl. eauto.
    + intros [= <- <-]. simpl. eauto.
    + destruct (write_error env) as [m|]; [| discriminate].
      intros [= <- <-]. simpl. eauto.
Qed.

(** When the staging step returns, it either did nothing or staged the
    file and rewrote the two keys. *)
Lemma stage_cookies_cases env (opts final : dict) w w1 :
  stage_cookies env opts w = (inr final, w1) →
  (truthy (opts !! "cookies") = false ∧ final = opts ∧ w1 = w)
  ∨ (∃ c, opts !! "cookies" = Some (VStr c)
          ∧ final = <["cookiefile" := VStr (cookie_file_path env)]> (delete "cookies" opts)
          ∧ w1 = World (<[cookie_file_path env := c]>
                          (<[cookie_file_path env := EmptyString]> (files w)))
                       (logs w ++ [LogUsingCookieFile (cookie_file_path env)])
                       (invoked w)).
Proof.
  unfold stage_cookies.
  destruct (truthy (opts !! "cookies")) eqn:Ht; [| intros [= <- <-]; now left].
  destruct (opts !! "cookies") as [v|]; [| discriminate Ht].
  unfold try_except, bind, os_open_w, file_write, log, ret, raise, set_files.
  destruct (open_error env); [discriminate |].
  destruct v as [b|z|c]; simpl; try discriminate.
  destruct (write_error env); [discriminate |].
  intros [= <- <-]. right. exists c. auto.
Qed.

(** The test of line 112 can raise only for a [cookiefile] entry that the
    caller put into the mapping. *)
Lemma stage_cookies_cleanup_raises env (opts final : dict) w w1 :
  stage_cookies env opts w = (inr final, w1) →
  cleanup_raises final
  = if truthy (opts !! "cookies") then None else cleanup_raises opts.
Proof.
  intros Hs.
  destruct (stage_cookies_cases env opts final w w1 Hs)
    as [(Ht & -> & _) | (c & Hc & -> & _)].
  - now rewrite Ht.
  - destruct (truthy (opts !! "cookies")) eqn:Ht.
    + apply (cleanup_raises_str _ (cookie_file_path env)), lookup_insert_eq.
    + exfalso. unfold stage_cookies in Hs. rewrite Ht in Hs.
      injection Hs as Hf _.
      assert (opts !! "cookiefile" = Some (VStr (cookie_file_path env)) ∧ opts !! "cookies" = None)
        as [_ Hn].
      { rewrite Hf. split; [apply lookup_insert_eq |].
        rewrite lookup_insert_ne by discriminate. apply lookup_delete_eq. }
      congruence.
Qed.

(** The outcome of a call that reached the [with] block. *)
Lemma run_yt_dlp_operation_outcome env ydl url (opts : dict) download w o :
  library_outcome env ydl url opts download w = Some o →
  ∃ final w1 w2,
    stage_cookies env opts w = (inr final, w1)
    ∧ try_body ydl url (drop_verbose final) download w1 = (o, w2)
    ∧ (run_yt_dlp_operation env ydl url opts download w).1
      = match cleanup_raises final with
        | Some x => inl x
        | None => match o with
                  | inl e => (handlers url e w2).1
                  | inr r => inr r
                  end
        end
    ∧ logs (run_yt_dlp_operation env ydl url opts download w).2
      = match o with
        | inl e => logs (cleanup env (drop_verbose final) (handlers url e w2).2).2
        | inr r => logs (cleanup env (drop_verbose final) w2).2
        end.
Proof.
  unfold library_outcome. intros H.
  rewrite run_yt_dlp_operation_unfold.
  destruct (stage_cookies env opts w) as [[e|final] w1]; [discriminate |].
  injection H as H.
  exists final, w1, (try_body ydl url (drop_verbose final) download w1).2.
  split; [reflexivity |].
  unfold try_except.
  destruct (try_body ydl url (drop_verbose final) download w1) as [o' w2].
  simpl in *. subst o'.
  split; [reflexivity |].
  destruct o as [e|r]; simpl; [| split; reflexivity].
  destruct (handlers url e w2); split; reflexivity.
Qed.

(** The [finally] block only appends to the log. *)
Lemma cleanup_logs env (params : dict) w :
  ∃ l, logs (cleanup env params w).2 = logs w ++ l.
Proof.
  unfold cleanup.
  destruct (params !! "cookiefile") as [v|]; [| exists []; simpl; now rewrite app_nil_r].
  unfold bind, os_path_exists, try_except, os_remove, log, raise, ret, set_files.
  destruct v as [b|z|p]; simpl.
  - destruct (fd_open env _); simpl; eauto. exists []. now rewrite app_nil_r.
  - destruct (fd_in_range z); simpl; [| exists []; now rewrite app_nil_r].
    destruct (fd_open env z); simpl; eauto. exists []. now rewrite app_nil_r.
  - destruct (_ && _); simpl; [| exists []; now rewrite app_nil_r].
    destruct (remove_error env); simpl; eauto.
Qed.

Lemma includes_suffix (pre msg : string) : includes (pre +:+ msg) msg.
Proof.
  exists pre, EmptyString. f_equal.
  induction msg as [|ch msg IH]; [reflexivity |].
  change (String ch msg = String ch (msg +:+ EmptyString)). now f_equal.
Qed.

Lemma try_body_files ydl url (params : dict) download w :
  keeps_files ydl → files (try_body ydl url params download w).2 = files w.
Proof.
  intros (He & Hx & Hp & Hq).
  unfold try_body, with_YoutubeDL, try_finally, bind, record_invocation,
    call, log, ret, set_files. simpl.
  pose proof (He params (files w)) as H0.
  destruct (ydl_enter ydl params (files w)) as [[e|[]] f0]; simpl in *; subst f0;
    [reflexivity |].
  destruct download; simpl.
  - pose proof (Hx params url true (files w)) as H1.
    destruct (extract_info ydl params url true (files w)) as [[e|info] f1];
      simpl in *; subst f1.
    + pose proof (Hq params (files w)) as H2.
      destruct (ydl_exit ydl params (files w)) as [[e'|[]] f2]; simpl in *; now subst f2.
    + pose proof (Hp params info (files w)) as H2.
      destruct (prepare_filename ydl params info (files w)) as [[e|fp] f2];
        simpl in *; subst f2;
        pose proof (Hq params (files w)) as H3;
        destruct (ydl_exit ydl params (files w)) as [[e'|[]] f3]; simpl in *; now subst f3.
  - pose proof (Hx params url false (files w)) as H1.
    destruct (extract_info ydl params url false (files w)) as [[e|info] f1];
      simpl in *; subst f1;
      pose proof (Hq params (files w)) as H2;
      destruct (ydl_exit ydl params (files w)) as [[e'|[]] f2]; simpl in *; now subst f2.
Qed.

Lemma guarded_files ydl url (params : dict) download w :
  keeps_files ydl →
  files (try_except (try_body ydl url params download) (handlers url) w).2 = files w.
Proof.
  intros Hk. pose proof (try_body_files ydl url params download w Hk) as H.
  unfold try_except.
  destruct (try_body ydl url params download w) as [[e|r] w1]; simpl in *; [| exact H].
  now rewrite (proj2 (handlers_world url e w1)).
Qed.

(** ** Credential staging and cleanup *)

(** C1, as the specification words it, does not hold: when [os.remove]
    raises, the exception is logged and the staged file stays on disk after
    the gateway call has returned. *)
Lemma staged_file_survives_failed_remove : ¬ staged_file_always_removed.
Proof.
  intros H.
  specialize (H (with_remove_error (Some "Permission denied") (env_ok 7))
                (ydl_ok ∅ "downloads/Demo.mp4") "https://example.com/video/1"
                (<["cookies" := VStr "sessionid=abc123"]> (model_dump default_options))
                true w0 "sessionid=abc123").
  vm_compute in H.
  discriminate H; [reflexivity | discriminate | reflexivity | reflexivity].
Qed.

(** C1 (amended): in a gateway call whose credential string was written to
    the staged file, the file exists with that content when the library is
    constructed, and the [finally] block runs on every exit path of the
    library (normal return, recognized error, any other exception).  If
    [os.path.exists] sees the file and [os.remove] works, the file is absent
    when the call returns.  If [os.remove] raises, the failure is logged as a
    warning and the file is left in place: the block changes no file, and
    with a library that leaves the files alone the staged file still holds
    the credential string when the call returns.  For the mapping of such a
    call the block never raises, running it again changes no file, and when
    [os.path.exists] does not see the file (it is absent, or [os.stat] is
    refused) the block does nothing at all. *)
Theorem staged_file_removed env ydl url (opts : dict) download w c :
  opts !! "cookies" = Some (VStr c) → c ≠ EmptyString →
  open_error env = None → write_error env = None →
  ∃ params fs,
    let w' := (run_yt_dlp_operation env ydl url opts download w).2 in
    let p := cookie_file_path env in
    invoked w' = invoked w ++ [Invocation params fs]
    ∧ params !! "cookiefile" = Some (VStr p)
    ∧ fs !! p = Some c
    ∧ (stat_error env = false → remove_error env = None →
       files w' !! p = None ∧ cleanup env params w' = (inr tt, w'))
    ∧ (∀ m, stat_error env = false → remove_error env = Some m → keeps_files ydl →
         files w' !! p = Some c
         ∧ last (logs w') = Some (LogRemoveFailed (VStr p) m)
         ∧ level (LogRemoveFailed (VStr p) m) = WARNING)
    ∧ (∀ m w1, stat_error env = false → remove_error env = Some m →
         is_Some (files w1 !! p) →
         cleanup env params w1
         = (inr tt, World (files w1) (logs w1 ++ [LogRemoveFailed (VStr p) m])
                          (invoked w1)))
    ∧ (∀ w1, files w1 !! p = None ∨ stat_error env = true →
             cleanup env params w1 = (inr tt, w1))
    ∧ ∀ w1, (cleanup env params w1).1 = inr tt
            ∧ files (cleanup env params (cleanup env params w1).2).2
              = files (cleanup env params w1).2.
Proof.
  intros Hc Hne Ho Hw.
  pose proof (stage_cookies_written env opts w c Hc Hne Ho Hw) as Hs.
  set (final := <["cookiefile" := VStr (cookie_file_path env)]> (delete "cookies" opts)) in *.
  assert (Hcf : drop_verbose final !! "cookiefile" = Some (VStr (cookie_file_path env))).
  { rewrite drop_verbose_lookup_ne by discriminate. apply lookup_insert_eq. }
  eexists (drop_verbose final), _. cbv zeta.
  split; [rewrite run_yt_dlp_operation_invoked, Hs; reflexivity |].
  split; [exact Hcf |].
  split; [simpl; apply lookup_insert_eq |].
  split; [| split; [| split; [| split]]].
  - intros Hst Hr.
    assert (Hgone : files (run_yt_dlp_operation env ydl url opts download w).2
                      !! cookie_file_path env = None).
    { rewrite run_yt_dlp_operation_unfold, Hs. simpl. now apply cleanup_removes. }
    split; [exact Hgone |].
    now apply (cleanup_absent env _ (cookie_file_path env)).
  - intros m Hst Hr Hk.
    rewrite run_yt_dlp_operation_unfold, Hs. cbv zeta.
    match goal with |- context [cleanup _ _ ?g] => set (wg := g) end.
    assert (Hwg : files wg !! cookie_file_path env = Some c).
    { unfold wg. rewrite guarded_files by exact Hk. simpl. apply lookup_insert_eq. }
    simpl.
    rewrite (cleanup_failed env _ (cookie_file_path env) wg m Hcf Hst Hr)
      by (rewrite Hwg; eauto).
    simpl. split; [exact Hwg |]. split; [apply last_snoc | reflexivity].
  - intros m w1 Hst Hr Hf. now apply cleanup_failed.
  - intros w1 [Hf | Hst].
    + now apply (cleanup_absent env _ (cookie_file_path env)).
    + now apply (cleanup_blind env _ (cookie_file_path env)).
  - intros w1. split; [| apply cleanup_twice].
    apply cleanup_returns. now apply (cleanup_raises_str _ (cookie_file_path env)).
Qed.

Lemma staged_file_removed_witness :
  let opts := <["cookies" := VStr "sessionid=abc123"]> (model_dump default_options) in
  let failing := with_remove_error (Some "[Errno 13] Permission denied") (env_ok 7) in
  files (run_yt_dlp_operation (env_ok 7) (ydl_raising (OtherException "boom"))
           "https://example.com/video/1" opts true w0).2
    !! cookie_file_path (env_ok 7) = None
  ∧ files (run_yt_dlp_operation failing (ydl_ok ∅ "downloads/Demo.mp4")
             "https://example.com/video/1" opts true w0).2
      !! cookie_file_path failing = Some "sessionid=abc123"
  ∧ last (logs (run_yt_dlp_operation failing (ydl_ok ∅ "downloads/Demo.mp4")
                  "https://example.com/video/1" opts true w0).2)
    = Some (LogRemoveFailed (VStr (cookie_file_path failing)) "[Errno 13] Permission denied").
Proof.
  intros opts failing. split.
  - destruct (staged_file_removed (env_ok 7) (ydl_raising (OtherException "boom"))
                "https://example.com/video/1" opts true w0 "sessionid=abc123")
      as (params & fs & _ & _ & _ & Hgone & _);
      [reflexivity | discriminate | reflexivity | reflexivity |].
    apply Hgone; reflexivity.
  - destruct (staged_file_removed failing (ydl_ok ∅ "downloads/Demo.mp4")
                "https://example.com/video/1" opts true w0 "sessionid=abc123")
      as (params & fs & _ & _ & _ & _ & Hkept & _);
      [reflexivity | discriminate | reflexivity | reflexivity |].
    destruct (Hkept "[Errno 13] Permission denied") as (Hf & Hl & _);
      [reflexivity | reflexivity | repeat split |].
    split; [exact Hf | exact Hl].
Defined.

(** Two calls of one process that both carry a credential string stage it
    under the same path, whatever happened between the two staging steps,
    and the second overwrites the file of the first. *)
Lemma stage_cookies_same_path env (opts1 opts2 final1 final2 : dict) w w1 w' w2 c1 c2 :
  opts1 !! "cookies" = Some (VStr c1) → c1 ≠ EmptyString →
  opts2 !! "cookies" = Some (VStr c2) → c2 ≠ EmptyString →
  stage_cookies env opts1 w = (inr final1, w1) →
  stage_cookies env opts2 w' = (inr final2, w2) →
  final1 !! "cookiefile" = final2 !! "cookiefile"
  ∧ files w2 !! cookie_file_path env = Some c2.
Proof.
  intros H1 Hn1 H2 Hn2 Hs1 Hs2.
  destruct (stage_cookies_returns env opts1 final1 w w1 c1 H1 Hn1 Hs1) as [-> _].
  destruct (stage_cookies_returns env opts2 final2 w' w2 c2 H2 Hn2 Hs2) as [-> Hf].
  split; [| exact Hf].
  now rewrite !lookup_insert_eq.
Qed.

(** C2: the staged path is built from the process id alone (line 71), so two
    requests that one server process handles at the same time get the same
    path.  Here request A has staged its file and awaits the library when
    request B stages: both mappings name [downloads/cookies_4242.txt], the
    file now holds the credential of B, and when A finishes first its
    [finally] block removes the file that B still relies on. *)
Theorem concurrent_requests_share_staged_path :
  let env := env_ok 4242 in
  let request_a := <["cookies" := VStr "sessionid=alice"]> (model_dump default_options) in
  let request_b := <["cookies" := VStr "sessionid=bob"]> (model_dump default_options) in
  ∃ final_a w_a final_b w_b,
    stage_cookies env request_a w0 = (inr final_a, w_a)
    ∧ final_a !! "cookiefile" = Some (VStr "downloads/cookies_4242.txt")
    ∧ files w_a !! "downloads/cookies_4242.txt" = Some "sessionid=alice"
    ∧ stage_cookies env request_b w_a = (inr final_b, w_b)
    ∧ final_b !! "cookiefile" = Some (VStr "downloads/cookies_4242.txt")
    ∧ files w_b !! "downloads/cookies_4242.txt" = Some "sessionid=bob"
    ∧ files (cleanup env (drop_verbose final_a) w_b).2
        !! "downloads/cookies_4242.txt" = None.
Proof.
  cbv zeta.
  pose proof (stage_cookies_written (env_ok 4242)
                (<["cookies" := VStr "sessionid=alice"]> (model_dump default_options))
                w0 "sessionid=alice" eq_refl ltac:(discriminate) eq_refl eq_refl) as Ha.
  eexists _, _. eexists _, _.
  split; [exact Ha |].
  split; [reflexivity |].
  split; [reflexivity |].
  split; [apply (stage_cookies_written (env_ok 4242) _ _ "sessionid=bob");
          [reflexivity | discriminate | reflexivity | reflexivity] |].
  split; [reflexivity |].
  split; [reflexivity |].
  vm_compute. reflexivity.
Qed.

(** The distinctness that the specification asks for fails for every pair of
    calls of one process. *)
Lemma staged_paths_not_distinct : ¬ staged_paths_pairwise_distinct.
Proof.
  intros H.
  pose (a := <["cookies" := VStr "a=1"]> (∅ : dict)).
  pose (b := <["cookies" := VStr "b=2"]> (∅ : dict)).
  pose proof (stage_cookies_written (env_ok 1) a w0 "a=1"
                eq_refl ltac:(discriminate) eq_refl eq_refl) as Ha.
  match type of Ha with _ = (_, ?w1) =>
    pose proof (stage_cookies_written (env_ok 1) b w1 "b=2"
                  eq_refl ltac:(discriminate) eq_refl eq_refl) as Hb
  end.
  apply (H _ _ _ _ _ _ _ _ Ha Hb); [reflexivity | reflexivity |].
  now rewrite !lookup_insert_eq.
Qed.

(** ** Error mapping *)

Lemma stage_cookies_no_overflow env (opts final : dict) w w1 :
  stage_cookies env opts w = (inr final, w1) →
  cleanup_raises opts = None → cleanup_raises final = None.
Proof.
  intros Hs Ho. rewrite (stage_cookies_cleanup_raises env opts final w w1 Hs).
  now destruct (truthy _).
Qed.

(** The outcome of the [with] block when [extract_info] raises and
    [__exit__] returns. *)
Lemma try_body_extract_raises ydl url (params : dict) download w f1 e f2 f3 :
  ydl_enter ydl params (files w) = (inr tt, f1) →
  extract_info ydl params url download f1 = (inl e, f2) →
  ydl_exit ydl params f2 = (inr tt, f3) →
  (try_body ydl url params download w).1 = inl e.
Proof.
  intros He Hx Hq.
  unfold try_body, with_YoutubeDL, try_finally, bind, record_invocation,
    call, log, ret, set_files. simpl. rewrite He. simpl.
  destruct download; simpl; rewrite Hx; simpl; rewrite Hq; reflexivity.
Qed.

(** C3, as the specification words it, does not hold: the handlers see the
    exception that leaves the [with] block, and when [__exit__] raises after
    [extract_info] raised a download error, that is the exception of
    [__exit__]. *)
Lemma exit_failure_hides_download_error : ¬ extractor_errors_give_400.
Proof.
  intros H.
  destruct (H (env_ok 7)
              (ydl_raising_twice (DownloadError "network unreachable")
                 (OtherException "cannot save cookies"))
              "https://example.com/video/1" (model_dump default_options)
              (model_dump default_options) false w0 w0 ∅ ∅
              (DownloadError "network unreachable") "network unreachable")
    as (d & Hd & _); [left; reflexivity | reflexivity | reflexivity | reflexivity |].
  vm_compute in Hd. discriminate Hd.
Qed.

(** C3 (amended): when the exception that leaves the [with] block around
    the library is a download error or an extractor error, the gateway
    raises an HTTP exception with status 400 whose detail ends with the
    message of that error, hence includes it.  This is the case in
    particular when [extract_info] raises such an error and [__exit__]
    returns.  (The caller's mapping is taken to have no integer [cookiefile]
    outside the range of a C [int], for which the [finally] block raises.) *)
Theorem recognized_errors_give_400 env ydl url (opts : dict) download w e msg :
  e = DownloadError msg ∨ e = ExtractorError msg →
  cleanup_raises opts = None →
  (library_outcome env ydl url opts download w = Some (inl e) →
   ∃ d, (run_yt_dlp_operation env ydl url opts download w).1
          = inl (Http (HTTPException 400 d))
        ∧ includes d msg
        ∧ (e = DownloadError msg → d = "Download error: " +:+ msg)
        ∧ (e = ExtractorError msg →
           d = "Extractor error (e.g., unsupported URL, video unavailable): " +:+ msg))
  ∧ (∀ final w1 f1 f2 f3,
       stage_cookies env opts w = (inr final, w1) →
       ydl_enter ydl (drop_verbose final) (files w1) = (inr tt, f1) →
       extract_info ydl (drop_verbose final) url download f1 = (inl e, f2) →
       ydl_exit ydl (drop_verbose final) f2 = (inr tt, f3) →
       library_outcome env ydl url opts download w = Some (inl e)).
Proof.
  intros He Ho. split.
  - intros Hlib.
    destruct (run_yt_dlp_operation_outcome _ _ _ _ _ _ _ Hlib)
      as (final & w1 & w2 & Hs & _ & Hout & _).
    rewrite Hout, (stage_cookies_no_overflow env opts final w w1 Hs Ho).
    destruct He as [-> | ->]; simpl; eexists; (split; [reflexivity |]);
      (split; [apply includes_suffix |]); split; intros; congruence.
  - intros final w1 f1 f2 f3 Hs Hen Hx Hq.
    unfold library_outcome. rewrite Hs. f_equal.
    now apply (try_body_extract_raises ydl url _ download w1 f1 e f2 f3).
Qed.

Lemma recognized_errors_give_400_witness :
  ∃ d, (run_yt_dlp_operation (env_ok 7)
          (ydl_raising (DownloadError "network unreachable"))
          "https://example.com/video/1" (model_dump default_options) false w0).1
         = inl (Http (HTTPException 400 d))
       ∧ includes d "network unreachable"
       ∧ d = "Download error: network unreachable".
Proof.
  destruct (recognized_errors_give_400 (env_ok 7)
              (ydl_raising (DownloadError "network unreachable"))
              "https://example.com/video/1" (model_dump default_options) false w0
              (DownloadError "network unreachable") "network unreachable")
    as [Hout Hlib]; [left; reflexivity | reflexivity |].
  destruct Hout as (d & Hd & Hi & Hdl & _).
  - apply (Hlib (model_dump default_options) w0 ∅ ∅ ∅); reflexivity.
  - exists d. split; [exact Hd |]. split; [exact Hi |]. now apply Hdl.
Defined.

(** C4, as the specification words it, does not hold: the detail sent to the
    client carries the message of the unexpected exception. *)
Lemma unexpected_detail_leaks_message : ¬ unexpected_detail_is_generic.
Proof.
  intros H.
  destruct (H (env_ok 7)
              (ydl_raising (OtherException "[Errno 13] Permission denied: '/root/.netrc'"))
              "https://example.com/video/1" (model_dump default_options) false w0
              "[Errno 13] Permission denied: '/root/.netrc'")
    as (d & Hd & Hgeneric); [discriminate | reflexivity |].
  vm_compute in Hd. injection Hd as <-.
  apply Hgeneric.
  exists "An unexpected server error occurred: ", EmptyString. reflexivity.
Qed.

Lemma try_body_logs ydl url (params : dict) download w :
  ∃ l, logs (try_body ydl url params download w).2 = logs w ++ l ∧ no_error l.
Proof.
  unfold try_body, with_YoutubeDL, try_finally, bind, record_invocation,
    call, log, ret, set_files, no_error. simpl.
  destruct (ydl_enter ydl params (files w)) as [[e|[]] f0]; simpl;
    [exists []; split; [now rewrite app_nil_r | constructor] |].
  destruct download; simpl.
  - destruct (extract_info ydl params url true f0) as [[e|info] f1]; simpl.
    + destruct (ydl_exit ydl params f1) as [[e'|[]] f2]; simpl;
        (eexists; split; [reflexivity | repeat constructor; discriminate]).
    + destruct (prepare_filename ydl params info f1) as [[e|fp] f2]; simpl;
        destruct (ydl_exit ydl params f2) as [[e'|[]] f3]; simpl;
        rewrite <- ?app_assoc;
        (eexists; split; [reflexivity | repeat constructor; discriminate]).
  - destruct (extract_info ydl params url false f0) as [[e|info] f1]; simpl;
      destruct (ydl_exit ydl params f1) as [[e'|[]] f2]; simpl;
      rewrite <- ?app_assoc;
      (eexists; split; [reflexivity | repeat constructor; discriminate]).
Qed.

Lemma cleanup_logs_no_error env (params : dict) w :
  ∃ l, logs (cleanup env params w).2 = logs w ++ l ∧ no_error l.
Proof.
  unfold cleanup, no_error.
  destruct (params !! "cookiefile") as [v|];
    [| exists []; simpl; split; [now rewrite app_nil_r | constructor]].
  unfold bind, os_path_exists, try_except, os_remove, log, raise, ret, set_files.
  destruct v as [b|z|p]; simpl.
  - destruct (fd_open env _); simpl;
      [eexists; split; [reflexivity | repeat constructor; discriminate]
      | exists []; split; [now rewrite app_nil_r | constructor]].
  - destruct (fd_in_range z); simpl;
      [| exists []; split; [now rewrite app_nil_r | constructor]].
    destruct (fd_open env z); simpl;
      [eexists; split; [reflexivity | repeat constructor; discriminate]
      | exists []; split; [now rewrite app_nil_r | constructor]].
  - destruct (_ && _); simpl;
      [| exists []; split; [now rewrite app_nil_r | constructor]].
    destruct (remove_error env); simpl;
      (eexists; split; [reflexivity | repeat constructor; discriminate]).
Qed.

Lemma stage_cookies_logs_no_error env (opts final : dict) w w1 :
  stage_cookies env opts w = (inr final, w1) →
  ∃ l, logs w1 = logs w ++ l ∧ no_error l.
Proof.
  intros Hs.
  destruct (stage_cookies_cases env opts final w w1 Hs)
    as [(_ & _ & ->) | (c & _ & _ & ->)]; simpl.
  - exists []. split; [now rewrite app_nil_r | constructor].
  - eexists. split; [reflexivity | repeat constructor; discriminate].
Qed.

Lemma no_error_has_error l : no_error l → ¬ has_error l.
Proof.
  intros Hn (r & Hr & He). unfold no_error in Hn.
  rewrite Forall_forall in Hn. now apply (Hn r Hr).
Qed.

(** C4 (amended): when the exception that leaves the [with] block is an
    [Exception] outside the two recognized classes, the gateway raises an
    HTTP exception with status 500 whose detail is the fixed text "An
    unexpected server error occurred: " followed by the message of the
    exception (so the message reaches the client), and the message is logged
    as an error together with the URL.  An exception that is not an
    [Exception] (a cancellation at the [await], a keyboard interrupt) is not
    converted: after the cleanup it leaves the gateway as it is, and nothing
    is logged as an error.  (The caller's mapping is taken to have no integer
    [cookiefile] outside the range of a C [int].) *)
Theorem unexpected_errors_give_500 env ydl url (opts : dict) download w msg :
  cleanup_raises opts = None →
  (library_outcome env ydl url opts download w = Some (inl (OtherException msg)) →
   (run_yt_dlp_operation env ydl url opts download w).1
     = inl (Http (HTTPException 500 ("An unexpected server error occurred: " +:+ msg)))
   ∧ includes ("An unexpected server error occurred: " +:+ msg) msg
   ∧ LogUnexpected url msg ∈ logs (run_yt_dlp_operation env ydl url opts download w).2
   ∧ level (LogUnexpected url msg) = ERROR)
  ∧ (library_outcome env ydl url opts download w = Some (inl (BaseExc msg)) →
     (run_yt_dlp_operation env ydl url opts download w).1 = inl (BaseException msg)
     ∧ ∃ l, logs (run_yt_dlp_operation env ydl url opts download w).2 = logs w ++ l
            ∧ no_error l).
Proof.
  intros Ho. split; intros Hlib;
    destruct (run_yt_dlp_operation_outcome _ _ _ _ _ _ _ Hlib)
      as (final & w1 & w2 & Hs & Hb & Hout & Hlogs);
    rewrite (stage_cookies_no_overflow env opts final w w1 Hs Ho) in Hout.
  - split; [exact Hout |].
    split; [apply includes_suffix |].
    split; [| reflexivity].
    rewrite Hlogs.
    destruct (cleanup_logs env (drop_verbose final)
                (handlers url (OtherException msg) w2).2) as [l ->].
    simpl. set_solver.
  - split; [exact Hout |].
    rewrite Hlogs. simpl.
    destruct (stage_cookies_logs_no_error env opts final w w1 Hs) as (l1 & Hl1 & Hn1).
    destruct (try_body_logs ydl url (drop_verbose final) download w1) as (l2 & Hl2 & Hn2).
    rewrite Hb in Hl2. simpl in Hl2.
    destruct (cleanup_logs_no_error env (drop_verbose final) w2) as (l3 & -> & Hn3).
    exists (l1 ++ l2 ++ l3). rewrite Hl2, Hl1. split; [now rewrite <- !app_assoc |].
    unfold no_error in *. rewrite !Forall_app. auto.
Qed.

Lemma unexpected_errors_give_500_witness :
  let gw ydl := run_yt_dlp_operation (env_ok 7) ydl "https://example.com/video/1"
                  (model_dump default_options) true w0 in
  (gw (ydl_raising (OtherException "boom"))).1
    = inl (Http (HTTPException 500 ("An unexpected server error occurred: " +:+ "boom")))
  ∧ LogUnexpected "https://example.com/video/1" "boom"
      ∈ logs (gw (ydl_raising (OtherException "boom"))).2
  ∧ (gw (ydl_raising (BaseExc "CancelledError"))).1 = inl (BaseException "CancelledError").
Proof.
  intros gw.
  destruct (unexpected_errors_give_500 (env_ok 7) (ydl_raising (OtherException "boom"))
              "https://example.com/video/1" (model_dump default_options) true w0 "boom")
    as [Hother _]; [reflexivity |].
  destruct (unexpected_errors_give_500 (env_ok 7) (ydl_raising (BaseExc "CancelledError"))
              "https://example.com/video/1" (model_dump default_options) true w0
              "CancelledError")
    as [_ Hbase]; [reflexivity |].
  destruct Hother as (H1 & _ & H2 & _); [reflexivity |].
  destruct Hbase as (H3 & _); [reflexivity |].
  split; [exact H1 | split; [exact H2 | exact H3]].
Defined.

(** ** The staging failure *)

Lemma stage_cookies_fails env (opts : dict) w v e w1 :
  opts !! "cookies" = Some v → truthy (Some v) = true →
  (os_open_w env (cookie_file_path env) ;;;
   file_write env (cookie_file_path env) v) w = (inl e, w1) →
  stage_cookies env opts w =
    (inl (Http (HTTPException 500 "Failed to process cookies.")),
     World (files w1) (logs w1 ++ [LogCookieWriteFailed (os_exn_str e)]) (invoked w1)).
Proof.
  intros Hc Ht. unfold stage_cookies. rewrite Hc, Ht.
  unfold try_except, bind, os_open_w, file_write, log, ret, raise, set_files.
  destruct (open_error env) as [m|].
  - intros [= <- <-]. reflexivity.
  - destruct v as [b|z|c]; simpl.
    + intros [= <- <-]. reflexivity.
    + intros [= <- <-]. reflexivity.
    + destruct (write_error env) as [m|]; [| discriminate].
      intros [= <- <-]. reflexivity.
Qed.

(** C8: when writing the staged credential file fails (at [open] or at the
    write), the gateway call fails with status 500 and the library is not
    called at all. *)
Theorem staging_failure_aborts env ydl url (opts : dict) download w v e w1 :
  opts !! "cookies" = Some v → truthy (Some v) = true →
  (os_open_w env (cookie_file_path env) ;;;
   file_write env (cookie_file_path env) v) w = (inl e, w1) →
  (run_yt_dlp_operation env ydl url opts download w).1
    = inl (Http (HTTPException 500 "Failed to process cookies."))
  ∧ invoked (run_yt_dlp_operation env ydl url opts download w).2 = invoked w
  ∧ library_outcome env ydl url opts download w = None.
Proof.
  intros Hc Ht He.
  pose proof (stage_cookies_fails env opts w v e w1 Hc Ht He) as Hs.
  split; [| split].
  - rewrite run_yt_dlp_operation_unfold, Hs. reflexivity.
  - rewrite run_yt_dlp_operation_invoked, Hs. apply app_nil_r.
  - unfold library_outcome. now rewrite Hs.
Qed.

Lemma staging_failure_aborts_witness :
  let env := env_disk_full 7 in
  let opts := <["cookies" := VStr "sessionid=abc123"]> (model_dump default_options) in
  let ydl := ydl_ok ∅ "downloads/Demo.mp4" in
  (run_yt_dlp_operation env ydl "https://example.com/video/1" opts true w0).1
    = inl (Http (HTTPException 500 "Failed to process cookies."))
  ∧ invoked (run_yt_dlp_operation env ydl "https://example.com/video/1" opts true w0).2
    = invoked w0
  ∧ library_outcome env ydl "https://example.com/video/1" opts true w0 = None.
Proof.
  cbv zeta.
  apply (staging_failure_aborts _ _ _ _ _ w0 (VStr "sessionid=abc123")
           (OSError "[Errno 28] No space left on device")
           (World (<["downloads/cookies_7.txt" := EmptyString]> ∅) [] []));
    reflexivity.
Defined.

(** ** The request model *)

(** C5, as the specification words it, does not hold: the retry fields are
    plain [int] fields, so a body with [retries = -1] and a URL is
    accepted. *)
Lemma negative_retries_accepted : ¬ rejects_missing_url_or_negative_retries.
Proof.
  intros H.
  pose (o := {| p_format := None; p_outtmpl := None; p_noplaylist := None;
                p_nocheckcertificate := None; p_retries := Some (-1);
                p_extractor_retries := None; p_verbose := None;
                p_cookies := None |}).
  pose (p := {| p_url := Some "https://example.com/video/1"; p_options := Some o |}).
  destruct (proj2 (H p)) as [e He].
  - right. exists o, (-1). split; [reflexivity |]. split; [left; reflexivity | lia].
  - discriminate He.
Qed.

(** C5 (amended): a body whose fields have their declared types is rejected
    with a validation error exactly when the URL field is missing; a rejected
    body reaches neither the endpoint nor the library and leaves the world as
    it was; a negative retry count is accepted and kept as it is, so a body
    with [retries = -1] passes. *)
Theorem validation_rejects_exactly_missing_url :
  (∀ p, rejected p ↔ p_url p = None)
  ∧ (∀ endpoint p w e,
       validate_request p = inl e → post endpoint p w = (inl (inl e), w))
  ∧ (∀ p u o,
       p_url p = Some u → p_options p = Some o →
       ∃ r, validate_request p = inr r
            ∧ retries (options r) = default 5 (p_retries o)
            ∧ extractor_retries (options r) = default 5 (p_extractor_retries o)
            ∧ model_dump (options r) !! "retries" = Some (VInt (default 5 (p_retries o)))).
Proof.
  split; [| split].
  - intros p. unfold rejected, validate_request. split.
    + intros [e He]. destruct (p_url p); [discriminate | reflexivity].
    + intros ->. eauto.
  - intros endpoint p w e He. unfold post. now rewrite He.
  - intros p u o Hu Ho. unfold validate_request. rewrite Hu, Ho.
    eexists. split; [reflexivity |]. split; [reflexivity |]. split; [reflexivity |].
    simpl. unfold model_dump.
    destruct (cookies (validate_options o)); by simplify_map_eq.
Qed.

Lemma validation_rejects_exactly_missing_url_witness :
  let o := {| p_format := None; p_outtmpl := None; p_noplaylist := None;
              p_nocheckcertificate := None; p_retries := Some (-1);
              p_extractor_retries := None; p_verbose := None;
              p_cookies := None |} in
  let p := {| p_url := Some "https://example.com/video/1"; p_options := Some o |} in
  let q := {| p_url := None; p_options := Some o |} in
  (∃ r, validate_request p = inr r ∧ retries (options r) = -1)
  ∧ rejected q
  ∧ ∀ env ydl, ∃ e, post (get_video_info env ydl) q w0 = (inl (inl e), w0).
Proof.
  intros o p q.
  destruct validation_rejects_exactly_missing_url as (Hiff & Hpost & Hkeep).
  split; [| split].
  - destruct (Hkeep p _ o eq_refl eq_refl) as (r & Hr & Hret & _).
    exists r. split; [exact Hr | exact Hret].
  - apply Hiff. reflexivity.
  - intros env ydl. eexists. apply Hpost. reflexivity.
Defined.

(** C6: a body that has a URL and omits [options] is turned into a request
    whose options are the defaults: the default format selector, the output
    template under [downloads], [noplaylist] and [nocheckcertificate] true,
    five retries of each kind, [verbose] false and no credential string. *)
Theorem omitted_options_are_defaults (u : string) :
  validate_request {| p_url := Some u; p_options := None |}
  = inr {| url := u;
           options := {|
             format := "bestvideo[ext=mp4]+bestaudio[ext=m4a]/best[ext=mp4]/best";
             outtmpl := "downloads/%(title)s.%(ext)s";
             noplaylist := true;
             nocheckcertificate := true;
             retries := 5;
             extractor_retries := 5;
             verbose := false;
             cookies := None |} |}.
Proof. reflexivity. Qed.


(** ** The mapping handed to the library *)

Lemma handlers_outcome url e w w' : (handlers url e w).1 = (handlers url e w').1.
Proof. destruct e; reflexivity. Qed.

Lemma try_body_enter_raises ydl url (params : dict) download w e f' :
  ydl_enter ydl params (files w) = (inl e, f') →
  (try_body ydl url params download w).1 = inl e.
Proof.
  intros He.
  unfold try_body, with_YoutubeDL, try_finally, bind, record_invocation,
    call, log, ret, set_files. simpl. now rewrite He.
Qed.

Lemma try_body_info_returns ydl url (params : dict) w f1 info f2 f3 :
  ydl_enter ydl params (files w) = (inr tt, f1) →
  extract_info ydl params url false f1 = (inr info, f2) →
  ydl_exit ydl params f2 = (inr tt, f3) →
  (try_body ydl url params false w).1
  = inr (InfoResponse "Metadata extracted successfully!" info).
Proof.
  intros He Hx Hq.
  unfold try_body, with_YoutubeDL, try_finally, bind, record_invocation,
    call, log, ret, set_files. simpl.
  rewrite He. simpl. rewrite Hx. simpl. now rewrite Hq.
Qed.

Lemma guarded_outcome ydl url (params : dict) download w :
  (try_except (try_body ydl url params download) (handlers url) w).1
  = match (try_body ydl url params download w).1 with
    | inl e => (handlers url e w).1
    | inr r => inr r
    end.
Proof.
  unfold try_except.
  destruct (try_body ydl url params download w) as [[e|r] w1]; simpl; [| reflexivity].
  apply handlers_outcome.
Qed.

(** The staging step leaves every key but [cookies] and [cookiefile] as it
    found it. *)
Lemma stage_cookies_other_keys env (opts final : dict) w w1 k :
  k ≠ "cookies" → k ≠ "cookiefile" →
  stage_cookies env opts w = (inr final, w1) →
  final !! k = opts !! k.
Proof.
  intros Hk1 Hk2. unfold stage_cookies.
  destruct (truthy (opts !! "cookies")); [| now intros [= <- _]].
  destruct (opts !! "cookies") as [v|]; [| now intros [= <- _]].
  unfold try_except, bind, os_open_w, file_write, log, ret, raise, set_files.
  destruct (open_error env); [discriminate |].
  destruct v as [b|z|c]; simpl; try discriminate.
  destruct (write_error env); [discriminate |].
  intros [= <- _].
  rewrite lookup_insert_ne by congruence.
  apply lookup_delete_ne. congruence.
Qed.

(** C7: in a gateway call whose options hold a non-empty credential string,
    every mapping handed to the library has no [cookies] key and has a
    [cookiefile] key whose value is the staged path, and when the mapping is
    handed over the staged file already holds the credential string.  When
    the staged file can be written the library is called exactly once, and
    it is this mapping [params] and these files [staged] that its entry
    points receive: what the constructor does at [params] and [staged], and
    what [extract_info] does at [params], decides the outcome of the call. *)
Theorem cookies_replaced_by_cookiefile env ydl url (opts : dict) download w c :
  opts !! "cookies" = Some (VStr c) → c ≠ EmptyString →
  ∃ l,
    invoked (run_yt_dlp_operation env ydl url opts download w).2 = invoked w ++ l
    ∧ (∀ i, i ∈ l →
         inv_params i !! "cookies" = None
         ∧ inv_params i !! "cookiefile" = Some (VStr (cookie_file_path env))
         ∧ inv_files i !! cookie_file_path env = Some c)
    ∧ (open_error env = None → write_error env = None → length l = 1%nat)
    ∧ (open_error env = None → write_error env = None →
       let params :=
         drop_verbose (<["cookiefile" := VStr (cookie_file_path env)]>
                         (delete "cookies" opts)) in
       let staged := <[cookie_file_path env := c]> (files w) in
       let out := (run_yt_dlp_operation env ydl url opts download w).1 in
       l = [Invocation params staged]
       ∧ (∀ e f', ydl_enter ydl params staged = (inl e, f') →
                  out = (handlers url e w).1)
       ∧ (∀ f1 e f2 f3,
            ydl_enter ydl params staged = (inr tt, f1) →
            extract_info ydl params url download f1 = (inl e, f2) →
            ydl_exit ydl params f2 = (inr tt, f3) →
            out = (handlers url e w).1)
       ∧ (∀ f1 info f2 f3,
            download = false →
            ydl_enter ydl params staged = (inr tt, f1) →
            extract_info ydl params url false f1 = (inr info, f2) →
            ydl_exit ydl params f2 = (inr tt, f3) →
            out = inr (InfoResponse "Metadata extracted successfully!" info))).
Proof.
  intros Hc Hne. eexists. split; [apply run_yt_dlp_operation_invoked |].
  destruct (stage_cookies env opts w) as [[e|final] w1] eqn:Hs.
  - split; [intros i Hi; inversion Hi |].
    split; intros Ho Hw;
      rewrite (stage_cookies_written env opts w c Hc Hne Ho Hw) in Hs; discriminate.
  - destruct (stage_cookies_returns env opts final w w1 c Hc Hne Hs) as [-> Hf].
    split; [| split; [reflexivity |]].
    + intros i Hi. apply list_elem_of_singleton in Hi as ->. simpl.
      rewrite !drop_verbose_lookup_ne by discriminate.
      split; [| split; [| exact Hf]].
      * rewrite lookup_insert_ne by discriminate. apply lookup_delete_eq.
      * apply lookup_insert_eq.
    + intros Ho Hw. cbv zeta.
      rewrite (stage_cookies_written env opts w c Hc Hne Ho Hw) in Hs.
      injection Hs as <-. simpl. rewrite insert_insert_eq.
      split; [reflexivity |].
      rewrite run_yt_dlp_operation_unfold,
        (stage_cookies_written env opts w c Hc Hne Ho Hw). cbv zeta.
      rewrite (cleanup_raises_str _ (cookie_file_path env)) by apply lookup_insert_eq.
      cbn [fst]. rewrite guarded_outcome.
      match goal with |- context [try_body _ _ _ _ ?w1] => set (ws := w1) end.
      assert (Hfs : files ws = <[cookie_file_path env := c]> (files w)).
      { unfold ws. simpl. apply insert_insert_eq. }
      split; [| split].
      * intros e f' He. rewrite <- Hfs in He.
        rewrite (try_body_enter_raises _ _ _ _ _ _ _ He). apply handlers_outcome.
      * intros f1 e f2 f3 He Hx Hq. rewrite <- Hfs in He.
        rewrite (try_body_extract_raises _ _ _ _ _ _ _ _ _ He Hx Hq).
        apply handlers_outcome.
      * intros f1 info f2 f3 -> He Hx Hq. rewrite <- Hfs in He.
        now rewrite (try_body_info_returns _ _ _ _ _ _ _ _ He Hx Hq).
Qed.

Lemma cookies_replaced_by_cookiefile_witness :
  let env := env_ok 7 in
  let opts := <["cookies" := VStr "sessionid=abc123"]> (model_dump default_options) in
  let params := drop_verbose (<["cookiefile" := VStr (cookie_file_path env)]>
                                (delete "cookies" opts)) in
  let echo : YoutubeDL := {|
    ydl_enter := λ _ f, (inr tt, f);
    extract_info := λ given _ _ f, (inr given, f);
    prepare_filename := λ _ _ f, (inr EmptyString, f);
    ydl_exit := λ _ f, (inr tt, f) |} in
  (run_yt_dlp_operation env echo "https://example.com/video/1" opts false w0).1
  = inr (InfoResponse "Metadata extracted successfully!" params)
  ∧ params !! "cookies" = None
  ∧ params !! "cookiefile" = Some (VStr "downloads/cookies_7.txt").
Proof.
  intros env opts params echo.
  destruct (cookies_replaced_by_cookiefile env echo "https://example.com/video/1"
              opts false w0 "sessionid=abc123")
    as (l & _ & _ & _ & Hcall); [reflexivity | discriminate |].
  destruct Hcall as (_ & _ & _ & Hret); [reflexivity | reflexivity |].
  split; [| split; reflexivity].
  apply (Hret _ params _ _ eq_refl eq_refl eq_refl eq_refl).
Defined.

(** C9: when the verbose flag of the options is absent or false, no mapping
    handed to the library has a [verbose] key; when it is true, the key is
    kept with the value true.  A call without a credential string reaches
    the library exactly once. *)
Theorem verbose_key_only_when_true env ydl url (opts : dict) download w :
  ∃ l,
    invoked (run_yt_dlp_operation env ydl url opts download w).2 = invoked w ++ l
    ∧ (∀ i, i ∈ l →
         (opts !! "verbose" = None ∨ opts !! "verbose" = Some (VBool false) →
          inv_params i !! "verbose" = None)
         ∧ (opts !! "verbose" = Some (VBool true) →
            inv_params i !! "verbose" = Some (VBool true)))
    ∧ (truthy (opts !! "cookies") = false → length l = 1%nat).
Proof.
  eexists. split; [apply run_yt_dlp_operation_invoked |].
  destruct (stage_cookies env opts w) as [[e|final] w1] eqn:Hs.
  - split; [intros i Hi; inversion Hi |].
    intros Ht. rewrite (stage_cookies_skip env opts w Ht) in Hs. discriminate.
  - split; [| reflexivity].
    intros i Hi. apply list_elem_of_singleton in Hi as ->. simpl.
    rewrite drop_verbose_lookup.
    rewrite (stage_cookies_other_keys env opts final w w1 "verbose"
               ltac:(discriminate) ltac:(discriminate) Hs).
    split.
    + intros [-> | ->]; reflexivity.
    + intros ->. reflexivity.
Qed.

Lemma verbose_key_only_when_true_witness :
  let quiet := model_dump default_options in
  let loud := <["verbose" := VBool true]> (model_dump default_options) in
  let run opts := run_yt_dlp_operation (env_ok 7) (ydl_ok ∅ "downloads/Demo.mp4")
                    "https://example.com/video/1" opts false w0 in
  (∃ i, invoked (run quiet).2 = [i] ∧ inv_params i !! "verbose" = None)
  ∧ (∃ i, invoked (run loud).2 = [i] ∧ inv_params i !! "verbose" = Some (VBool true)).
Proof.
  intros quiet loud run. split.
  - destruct (verbose_key_only_when_true (env_ok 7) (ydl_ok ∅ "downloads/Demo.mp4")
                "https://example.com/video/1" quiet false w0)
      as (l & Hl & Hkey & Hlen).
    specialize (Hlen eq_refl).
    destruct l as [|i [|j l]]; try discriminate Hlen.
    exists i. split; [exact Hl |].
    apply (Hkey i); [apply list_elem_of_here | right; reflexivity].
  - destruct (verbose_key_only_when_true (env_ok 7) (ydl_ok ∅ "downloads/Demo.mp4")
                "https://example.com/video/1" loud false w0)
      as (l & Hl & Hkey & Hlen).
    specialize (Hlen eq_refl).
    destruct l as [|i [|j l]]; try discriminate Hlen.
    exists i. split; [exact Hl |].
    apply (Hkey i); [apply list_elem_of_here | reflexivity].
Defined.

(** ** Failures during cleanup *)

(** C10: an exception raised by [os.remove] in the [finally] block never
    leaves the block and never changes the outcome of the gateway call.  The
    only exception that leaves the block is the one that the test of line 112
    raises, whether [os.remove] fails or not; the outcome with a failing
    removal is the outcome with a working one; and unless that test raises,
    the outcome is the value or the exception that the guarded block had
    produced before the cleanup ran (or the HTTP exception of the staging
    step).  When a credential file was staged the test does not raise. *)
Theorem cleanup_failure_suppressed env ydl url (opts : dict) download w msg :
  (∀ params w1,
     (cleanup (with_remove_error (Some msg) env) params w1).1
     = match cleanup_raises params with Some x => inl x | None => inr tt end)
  ∧ (run_yt_dlp_operation (with_remove_error (Some msg) env) ydl url opts download w).1
    = (run_yt_dlp_operation (with_remove_error None env) ydl url opts download w).1
  ∧ (run_yt_dlp_operation (with_remove_error (Some msg) env) ydl url opts download w).1
    = match stage_cookies env opts w with
      | (inl e, _) => inl e
      | (inr final, w1) =>
          match cleanup_raises final with
          | Some x => inl x
          | None => (try_except (try_body ydl url (drop_verbose final) download)
                       (handlers url) w1).1
          end
      end
  ∧ (∀ final w1,
       truthy (opts !! "cookies") = true →
       stage_cookies env opts w = (inr final, w1) →
       (run_yt_dlp_operation (with_remove_error (Some msg) env) ydl url opts download w).1
       = (try_except (try_body ydl url (drop_verbose final) download)
            (handlers url) w1).1).
Proof.
  split; [intros params w1; apply cleanup_outcome |].
  rewrite !run_yt_dlp_operation_unfold.
  change (stage_cookies (with_remove_error (Some msg) env) opts w)
    with (stage_cookies env opts w).
  change (stage_cookies (with_remove_error None env) opts w)
    with (stage_cookies env opts w).
  destruct (stage_cookies env opts w) as [[e|final] w1] eqn:Hs.
  - split; [reflexivity |]. split; [reflexivity |]. intros final w2 _ [=].
  - split; [reflexivity |]. split; [reflexivity |].
    intros final' w2 Ht [= <- <-]. cbv zeta.
    rewrite (stage_cookies_cleanup_raises env opts final w w1 Hs), Ht. reflexivity.
Qed.

(** A download that succeeds while the removal of the staged file fails: the
    caller gets the download response, the failure is logged as a warning,
    and the staged file is still there. *)
Example failed_remove_is_logged_only :
  let env := with_remove_error (Some "[Errno 13] Permission denied") (env_ok 7) in
  let out := run_yt_dlp_operation env
               (ydl_ok {[ "title" := VStr "Demo"; "extractor" := VStr "generic" ]}
                  "downloads/Demo.mp4")
               "https://example.com/video/1"
               (<["cookies" := VStr "sessionid=abc123"]> (model_dump default_options))
               true w0 in
  out.1 = inr (DownloadResponse "Video downloaded successfully!"
                 (Some (VStr "Demo")) "downloads/Demo.mp4" (Some (VStr "generic")))
  ∧ last (logs out.2)
    = Some (LogRemoveFailed (VStr "downloads/cookies_7.txt") "[Errno 13] Permission denied")
  ∧ files out.2 !! "downloads/cookies_7.txt" = Some "sessionid=abc123".
Proof. vm_compute. repeat split. Qed.

(** A write that fails after [open] has created the file: the call ends with
    status 500 before the [try] of line 87, so its [finally] block does not
    run and the empty file stays. *)
Example failed_write_leaves_file :
  let out := run_yt_dlp_operation (env_disk_full 7) (ydl_ok ∅ "downloads/Demo.mp4")
               "https://example.com/video/1"
               (<["cookies" := VStr "sessionid=abc123"]> (model_dump default_options))
               true w0 in
  out.1 = inl (Http (HTTPException 500 "Failed to process cookies."))
  ∧ logs out.2 = [LogCookieWriteFailed "[Errno 28] No space left on device"]
  ∧ invoked out.2 = []
  ∧ files out.2 !! "downloads/cookies_7.txt" = Some EmptyString.
Proof. vm_compute. repeat split. Qed.

(** A mapping passed to the helper with an integer [cookiefile] that does
    not fit a C [int]: the download succeeds, the test of line 112 raises,
    and the caller gets the [OverflowError] instead of the response. *)
Example overflowing_cookiefile_replaces_response :
  (run_yt_dlp_operation (env_ok 7) (ydl_ok ∅ "downloads/Demo.mp4")
     "https://example.com/video/1"
     (<["cookiefile" := VInt 2147483648]> (model_dump default_options)) true w0).1
  = inl (OverflowError "fd is greater than maximum").
Proof. vm_compute. reflexivity. Qed.

(** ** The scenarios of the specification *)

(** [POST /info] with only a URL, the library returning a small info
    mapping. *)
Example info_scenario :
  let info : dict := {[ "title" := VStr "Demo"; "ext" := VStr "mp4";
                        "extractor" := VStr "generic" ]} in
  (post (get_video_info (env_ok 7) (ydl_ok info EmptyString))
     {| p_url := Some "https://example.com/video/1"; p_options := None |} w0).1
  = inr (InfoResponse "Metadata extracted successfully!" info).
Proof. vm_compute. reflexivity. Qed.

(** The same request with the library raising a download error. *)
Example download_error_scenario :
  (post (get_video_info (env_ok 7) (ydl_raising (DownloadError "network unreachable")))
     {| p_url := Some "https://example.com/video/1"; p_options := None |} w0).1
  = inl (inr (Http (HTTPException 400 "Download error: network unreachable"))).
Proof. vm_compute. reflexivity. Qed.

(** [POST /download] with a credential string: the staged file is there when
    the library is called and gone when the call has returned. *)
Example download_with_cookies_scenario :
  let o := {| p_format := None; p_outtmpl := None; p_noplaylist := None;
              p_nocheckcertificate := None; p_retries := None;
              p_extractor_retries := None; p_verbose := None;
              p_cookies := Some "sessionid=abc123" |} in
  let out := post (download_video (env_ok 7) (ydl_ok ∅ "downloads/Demo.mp4"))
               {| p_url := Some "https://example.com/video/1"; p_options := Some o |} w0 in
  (λ i, inv_files i !! "downloads/cookies_7.txt") <$> invoked out.2
    = [Some "sessionid=abc123"]
  ∧ files out.2 !! "downloads/cookies_7.txt" = None.
Proof. vm_compute. split; reflexivity. Qed.

(** A cancelled request: the exception passes the handlers unconverted, the
    staged file is removed all the same. *)
Example cancelled_request_scenario :
  let out := run_yt_dlp_operation (env_ok 7) (ydl_raising (BaseExc "CancelledError"))
               "https://example.com/video/1"
               (<["cookies" := VStr "sessionid=abc123"]> (model_dump default_options))
               true w0 in
  out.1 = inl (BaseException "CancelledError")
  ∧ files out.2 !! "downloads/cookies_7.txt" = None.
Proof. vm_compute. split; reflexivity. Qed.

(** * Further properties of the gateway *)

(** ** Outcomes *)

Lemma handlers_raise url e w : ∃ x, (handlers url e w).1 = inl x.
Proof. destruct e; simpl; eauto. Qed.

(** A response of the gateway is a response of the [with] block. *)
Lemma run_returns_inv env ydl url (opts : dict) download w r :
  (run_yt_dlp_operation env ydl url opts download w).1 = inr r →
  ∃ final w1 w2,
    stage_cookies env opts w = (inr final, w1)
    ∧ try_body ydl url (drop_verbose final) download w1 = (inr r, w2).
Proof.
  rewrite run_yt_dlp_operation_unfold.
  destruct (stage_cookies env opts w) as [[e|final] w1]; simpl; [discriminate |].
  destruct (cleanup_raises final); [discriminate |].
  unfold try_except.
  destruct (try_body ydl url (drop_verbose final) download w1) as [[e|r'] w2] eqn:Hb; simpl.
  - destruct (handlers_raise url e w2) as [h ->]. discriminate.
  - intros [= ->]. eauto.
Qed.




(** The [with] block answers a download with a download response and a
    metadata request with a metadata response. *)
Lemma try_body_shape ydl url (params : dict) download w r w1 :
  try_body ydl url params download w = (inr r, w1) →
  if download
  then ∃ (info : dict) filepath,
         r = DownloadResponse "Video downloaded successfully!"
               (info !! "title") filepath (info !! "extractor")
  else ∃ info : dict, r = InfoResponse "Metadata extracted successfully!" info.
Proof.
  unfold try_body, with_YoutubeDL, try_finally, bind, record_invocation,
    call, log, ret, set_files. simpl.
  destruct (ydl_enter ydl params (files w)) as [[e|[]] f0]; [discriminate |].
  destruct download; simpl.
  - destruct (extract_info ydl params url true f0) as [[e|info] f1]; simpl.
    + destruct (ydl_exit ydl params f1) as [[e'|[]] f2]; discriminate.
    + destruct (prepare_filename ydl params info f1) as [[e|fp] f2]; simpl;
        destruct (ydl_exit ydl params f2) as [[e'|[]] f3]; try discriminate.
      intros [= <- _]. eauto.
  - destruct (extract_info ydl params url false f0) as [[e|info] f1]; simpl;
      destruct (ydl_exit ydl params f1) as [[e'|[]] f2]; try discriminate.
    intros [= <- _]. eauto.
Qed.

(** X3: the kind of the response follows the [download] flag.  A download
    returns the download message with the title and extractor entries of
    some info mapping and a file path; a metadata request returns the
    metadata message with an info mapping.  Hence [/info] never answers with
    a file path and [/download] never with the raw info. *)
Theorem response_kind_follows_mode env ydl url (opts : dict) download w r :
  (run_yt_dlp_operation env ydl url opts download w).1 = inr r →
  if download
  then ∃ (info : dict) filepath,
         r = DownloadResponse "Video downloaded successfully!"
               (info !! "title") filepath (info !! "extractor")
  else ∃ info : dict, r = InfoResponse "Metadata extracted successfully!" info.
Proof.
  intros H. apply run_returns_inv in H.
  destruct H as (final & w1 & w2 & _ & H). now apply try_body_shape in H.
Qed.

Lemma response_kind_follows_mode_witness :
  ∃ info : dict,
    InfoResponse "Metadata extracted successfully!" {[ "title" := VStr "Demo" ]}
    = InfoResponse "Metadata extracted successfully!" info.
Proof.
  apply (response_kind_follows_mode (env_ok 7)
           (ydl_ok {[ "title" := VStr "Demo" ]} "downloads/Demo.mp4")
           "https://example.com/video/1" (model_dump default_options) false w0).
  reflexivity.
Defined.



(** ** What a metadata request cannot reach *)

Lemma try_body_info_agree ydl ydl' url (params : dict) w :
  agree_on_info ydl ydl' →
  try_body ydl url params false w = try_body ydl' url params false w.
Proof.
  intros (He & Hx & Hq).
  unfold try_body, with_YoutubeDL, try_finally, bind, record_invocation,
    call, log, ret, set_files. simpl.
  rewrite He.
  destruct (ydl_enter ydl' params (files w)) as [[e|[]] f0]; [reflexivity |].
  simpl. rewrite Hx.
  destruct (extract_info ydl' params url false f0) as [[e|info] f1]; simpl;
    now rewrite Hq.
Qed.

(** X5: a metadata request ([download=False]) never asks the library to
    download and never asks it for a file name: two libraries that differ
    only in [extract_info] with [download=True] and in [prepare_filename]
    give the same outcome, the same files and the same log. *)
Theorem info_request_never_downloads env ydl ydl' url (opts : dict) w :
  agree_on_info ydl ydl' →
  run_yt_dlp_operation env ydl url opts false w
  = run_yt_dlp_operation env ydl' url opts false w.
Proof.
  intros H. rewrite !run_yt_dlp_operation_unfold.
  destruct (stage_cookies env opts w) as [[e|final] w1]; [reflexivity |].
  unfold try_except. now rewrite (try_body_info_agree ydl ydl' url _ w1 H).
Qed.

Lemma info_request_never_downloads_witness :
  run_yt_dlp_operation (env_ok 7) (ydl_info_only {[ "title" := VStr "Demo" ]})
    "https://example.com/video/1" (model_dump default_options) false w0
  = run_yt_dlp_operation (env_ok 7) (ydl_ok {[ "title" := VStr "Demo" ]} "downloads/Demo.mp4")
      "https://example.com/video/1" (model_dump default_options) false w0.
Proof.
  apply (info_request_never_downloads (env_ok 7)
           (ydl_info_only {[ "title" := VStr "Demo" ]})
           (ydl_ok {[ "title" := VStr "Demo" ]} "downloads/Demo.mp4")).
  repeat split.
Defined.

(** ** Edge cases of the credential handling *)

(** X6: an empty credential string is not staged.  No file is written, the
    library is called once, and the mapping it receives still carries the
    [cookies] key with the empty string, and a [cookiefile] key only if the
    caller's mapping had one. *)
Theorem empty_cookies_not_staged env ydl url (opts : dict) download w :
  opts !! "cookies" = Some (VStr EmptyString) →
  ∃ i,
    invoked (run_yt_dlp_operation env ydl url opts download w).2 = invoked w ++ [i]
    ∧ inv_params i !! "cookies" = Some (VStr EmptyString)
    ∧ inv_params i !! "cookiefile" = opts !! "cookiefile"
    ∧ inv_files i = files w.
Proof.
  intros Hc.
  assert (Ht : truthy (opts !! "cookies") = false) by now rewrite Hc.
  eexists. rewrite run_yt_dlp_operation_invoked, (stage_cookies_skip env opts w Ht).
  split; [reflexivity |]. simpl.
  rewrite !drop_verbose_lookup_ne by discriminate. auto.
Qed.

Lemma empty_cookies_not_staged_witness :
  let opts := <["cookies" := VStr EmptyString]> (model_dump default_options) in
  ∃ i,
    invoked (run_yt_dlp_operation (env_ok 7) (ydl_ok ∅ "downloads/Demo.mp4")
               "https://example.com/video/1" opts true w0).2 = invoked w0 ++ [i]
    ∧ inv_params i !! "cookies" = Some (VStr EmptyString)
    ∧ inv_params i !! "cookiefile" = opts !! "cookiefile"
    ∧ inv_files i = files w0.
Proof.
  apply (empty_cookies_not_staged (env_ok 7) (ydl_ok ∅ "downloads/Demo.mp4")
           "https://example.com/video/1"
           (<["cookies" := VStr EmptyString]> (model_dump default_options)) true w0).
  reflexivity.
Defined.

(** X7: the [finally] block does not tell a staged file from one the caller
    named.  When the mapping given to [run_yt_dlp_operation] has no usable
    [cookies] entry but has a [cookiefile] entry, the file at that path is
    removed when the call returns (if [os.path.exists] can see it and
    [os.remove] works), although the gateway did not create it. *)
Theorem caller_cookiefile_is_removed env ydl url (opts : dict) download w p :
  truthy (opts !! "cookies") = false →
  opts !! "cookiefile" = Some (VStr p) →
  stat_error env = false →
  remove_error env = None →
  files (run_yt_dlp_operation env ydl url opts download w).2 !! p = None.
Proof.
  intros Ht Hp Hst Hr.
  rewrite run_yt_dlp_operation_unfold, (stage_cookies_skip env opts w Ht). simpl.
  apply cleanup_removes; [| exact Hst | exact Hr].
  now rewrite drop_verbose_lookup_ne by discriminate.
Qed.

Lemma caller_cookiefile_is_removed_witness :
  files (w_file "/home/app/cookies.txt" "sessionid=abc123") !! "/home/app/cookies.txt"
    = Some "sessionid=abc123"
  ∧ files (run_yt_dlp_operation (env_ok 7) (ydl_ok ∅ "downloads/Demo.mp4")
             "https://example.com/video/1"
             (<["cookiefile" := VStr "/home/app/cookies.txt"]> (model_dump default_options))
             true (w_file "/home/app/cookies.txt" "sessionid=abc123")).2
      !! "/home/app/cookies.txt" = None.
Proof.
  split; [reflexivity |].
  apply (caller_cookiefile_is_removed (env_ok 7) (ydl_ok ∅ "downloads/Demo.mp4"));
    reflexivity.
Defined.

(** ** Files the gateway touches *)

Lemma stage_cookies_files_other env (opts : dict) w p :
  p ≠ cookie_file_path env →
  files (stage_cookies env opts w).2 !! p = files w !! p.
Proof.
  intros Hp. unfold stage_cookies.
  destruct (truthy (opts !! "cookies")); [| reflexivity].
  destruct (opts !! "cookies") as [v|]; [| reflexivity].
  unfold try_except, bind, os_open_w, file_write, log, ret, raise, set_files.
  destruct (open_error env); [reflexivity |].
  destruct v as [b|z|c]; simpl; try (now rewrite lookup_insert_ne by congruence).
  destruct (write_error env); simpl; now rewrite !lookup_insert_ne by congruence.
Qed.

Lemma cleanup_nothing env (params : dict) w :
  params !! "cookiefile" = None → cleanup env params w = (inr tt, w).
Proof. intros H. unfold cleanup. now rewrite H. Qed.

Lemma cleanup_files_other env (params : dict) q p w :
  params !! "cookiefile" = Some (VStr q) → p ≠ q →
  files (cleanup env params w).2 !! p = files w !! p.
Proof.
  intros Hq Hp. unfold cleanup. rewrite Hq.
  unfold bind, os_path_exists, try_except, os_remove, log, raise, ret, set_files. simpl.
  destruct (_ && _); [| reflexivity].
  destruct (remove_error env); simpl; [reflexivity |].
  apply lookup_delete_ne. congruence.
Qed.

(** X8: when the caller's mapping has no [cookiefile] entry, the gateway
    itself touches no file but the staged one: with a library that leaves the
    files alone, every other path is after the call as it was before, on
    every exit path; and without a credential string no file changes at
    all. *)
Theorem gateway_touches_only_staged_file env ydl url (opts : dict) download w :
  keeps_files ydl → opts !! "cookiefile" = None →
  (∀ p, p ≠ cookie_file_path env →
        files (run_yt_dlp_operation env ydl url opts download w).2 !! p = files w !! p)
  ∧ (truthy (opts !! "cookies") = false →
     files (run_yt_dlp_operation env ydl url opts download w).2 = files w).
Proof.
  intros Hk Hcf. rewrite run_yt_dlp_operation_unfold. split.
  - intros p Hp.
    pose proof (stage_cookies_files_other env opts w p Hp) as Hs.
    destruct (stage_cookies env opts w) as [[e|final] w1] eqn:Hst; simpl in *;
      [exact Hs |].
    destruct (stage_cookies_cases env opts final w w1 Hst)
      as [(_ & -> & ->) | (c & _ & -> & _)].
    + rewrite cleanup_nothing by now rewrite drop_verbose_lookup_ne by discriminate.
      simpl. now rewrite guarded_files.
    + rewrite (cleanup_files_other env _ (cookie_file_path env) p).
      * now rewrite guarded_files.
      * rewrite drop_verbose_lookup_ne by discriminate. apply lookup_insert_eq.
      * exact Hp.
  - intros Ht. rewrite (stage_cookies_skip env opts w Ht). simpl.
    rewrite cleanup_nothing by now rewrite drop_verbose_lookup_ne by discriminate.
    simpl. now apply guarded_files.
Qed.

Lemma gateway_touches_only_staged_file_witness :
  let w := w_file "downloads/Old.mp4" "video" in
  let opts := <["cookies" := VStr "sessionid=abc123"]> (model_dump default_options) in
  files (run_yt_dlp_operation (env_ok 7) (ydl_raising (DownloadError "gone"))
           "https://example.com/video/1" opts true w).2 !! "downloads/Old.mp4"
  = Some "video".
Proof.
  intros w opts.
  destruct (gateway_touches_only_staged_file (env_ok 7)
              (ydl_raising (DownloadError "gone")) "https://example.com/video/1"
              opts true w) as [Hother _].
  - repeat split.
  - reflexivity.
  - rewrite Hother; [reflexivity | discriminate].
Defined.

(** X9: a write that fails after [open] has created the staged file ends the
    call with status 500 before the [try] statement whose [finally] block
    removes the file: the staged path still exists when the call returns, and
    the library has not been called. *)
Theorem failed_write_leaves_staged_file env ydl url (opts : dict) download w c m :
  opts !! "cookies" = Some (VStr c) → c ≠ EmptyString →
  open_error env = None → write_error env = Some m →
  (run_yt_dlp_operation env ydl url opts download w).1
    = inl (Http (HTTPException 500 "Failed to process cookies."))
  ∧ is_Some (files (run_yt_dlp_operation env ydl url opts download w).2
               !! cookie_file_path env)
  ∧ invoked (run_yt_dlp_operation env ydl url opts download w).2 = invoked w.
Proof.
  intros Hc Hne Ho Hw.
  assert (Hs : stage_cookies env opts w =
               (inl (Http (HTTPException 500 "Failed to process cookies.")),
                World (<[cookie_file_path env := EmptyString]> (files w))
                      (logs w ++ [LogCookieWriteFailed m]) (invoked w))).
  { unfold stage_cookies. rewrite Hc, (truthy_str c Hne).
    unfold try_except, bind, os_open_w, file_write, log, ret, raise, set_files.
    now rewrite Ho, Hw. }
  rewrite run_yt_dlp_operation_unfold, Hs. simpl.
  split; [reflexivity |]. split; [| reflexivity].
  rewrite lookup_insert_eq. eauto.
Qed.

Lemma failed_write_leaves_staged_file_witness :
  let env := env_disk_full 7 in
  let out := run_yt_dlp_operation env (ydl_ok ∅ "downloads/Demo.mp4")
               "https://example.com/video/1"
               (<["cookies" := VStr "sessionid=abc123"]> (model_dump default_options))
               true w0 in
  out.1 = inl (Http (HTTPException 500 "Failed to process cookies."))
  ∧ is_Some (files out.2 !! cookie_file_path env)
  ∧ invoked out.2 = invoked w0.
Proof.
  apply (failed_write_leaves_staged_file (env_disk_full 7)
           (ydl_ok ∅ "downloads/Demo.mp4") "https://example.com/video/1"
           (<["cookies" := VStr "sessionid=abc123"]> (model_dump default_options))
           true w0 "sessionid=abc123" "[Errno 28] No space left on device");
    [reflexivity | discriminate | reflexivity | reflexivity].
Defined.

(** ** The mapping built from a request *)

(** X10: [model_dump(exclude_none=True)] has the seven keys of the model,
    and the [cookies] key exactly when a credential string was given; in
    particular a request can never put a [cookiefile] key into the mapping,
    so the only file the endpoints remove is the staged one. *)
Theorem model_dump_keys (o : YtDlpOptions) :
  dom (model_dump o)
  = {[ "format"; "outtmpl"; "noplaylist"; "nocheckcertificate";
       "retries"; "extractor_retries"; "verbose" ]}
    ∪ match cookies o with Some _ => {[ "cookies" ]} | None => ∅ end
  ∧ model_dump o !! "cookiefile" = None.
Proof.
  unfold model_dump. split.
  - destruct (cookies o); rewrite !dom_insert_L, dom_empty_L; set_solver.
  - destruct (cookies o); by simplify_map_eq.
Qed.

Lemma model_dump_lookups (o : YtDlpOptions) :
  model_dump o !! "format" = Some (VStr (format o))
  ∧ model_dump o !! "outtmpl" = Some (VStr (outtmpl o))
  ∧ model_dump o !! "noplaylist" = Some (VBool (noplaylist o))
  ∧ model_dump o !! "nocheckcertificate" = Some (VBool (nocheckcertificate o))
  ∧ model_dump o !! "retries" = Some (VInt (retries o))
  ∧ model_dump o !! "extractor_retries" = Some (VInt (extractor_retries o))
  ∧ model_dump o !! "verbose" = Some (VBool (verbose o))
  ∧ model_dump o !! "cookies" = VStr <$> cookies o.
Proof.
  unfold model_dump. destruct (cookies o); repeat split; by simplify_map_eq.
Qed.

(** X11: the dumped mapping loses nothing: two option records with the same
    mapping are the same record. *)
Theorem model_dump_inj (o1 o2 : YtDlpOptions) :
  model_dump o1 = model_dump o2 → o1 = o2.
Proof.
  intros H.
  destruct (model_dump_lookups o1) as (F1 & O1 & N1 & C1 & R1 & E1 & V1 & K1).
  destruct (model_dump_lookups o2) as (F2 & O2 & N2 & C2 & R2 & E2 & V2 & K2).
  rewrite H in F1, O1, N1, C1, R1, E1, V1, K1.
  destruct o1, o2; simpl in *.
  assert (cookies0 = cookies1).
  { destruct cookies0, cookies1; simpl in *; congruence. }
  congruence.
Qed.

Lemma model_dump_inj_witness :
  validate_options {| p_format := None; p_outtmpl := None; p_noplaylist := None;
                      p_nocheckcertificate := None; p_retries := Some 5;
                      p_extractor_retries := None; p_verbose := None;
                      p_cookies := None |}
  = default_options.
Proof. apply model_dump_inj. reflexivity. Defined.

Lemma run_options_reach env ydl url (o : YtDlpOptions) download w :
  ∃ l, invoked (run_yt_dlp_operation env ydl url (model_dump o) download w).2
       = invoked w ++ l
       ∧ Forall (options_reach o) l.
Proof.
  eexists. split; [apply run_yt_dlp_operation_invoked |].
  destruct (stage_cookies env (model_dump o) w) as [[e|final] w1] eqn:Hs; [constructor |].
  constructor; [| constructor].
  destruct (model_dump_lookups o) as (F & O & N & C & R & E & _ & _).
  unfold options_reach. simpl.
  rewrite !drop_verbose_lookup_ne by discriminate.
  rewrite !(stage_cookies_other_keys env (model_dump o) final w w1) by (discriminate || exact Hs).
  auto 10.
Qed.

(** X12: both endpoints hand the format selector, the output template, the
    two flags and the two retry counts of the request to the library exactly
    as the request has them (a negative retry count included): whenever the
    library is called, its mapping carries these six values. *)
Theorem request_options_reach_library env ydl (request : VideoRequest) w :
  (∃ l, invoked (get_video_info env ydl request w).2 = invoked w ++ l
        ∧ Forall (options_reach (options request)) l)
  ∧ (∃ l, invoked (download_video env ydl request w).2 = invoked w ++ l
          ∧ Forall (options_reach (options request)) l).
Proof. split; apply run_options_reach. Qed.

(** ** Logging *)

Lemma has_error_app_l l1 l2 : has_error l1 → has_error (l1 ++ l2).
Proof. intros (r & Hr & He). exists r. split; [set_solver | exact He]. Qed.

Lemma has_error_app_r l1 l2 : has_error l2 → has_error (l1 ++ l2).
Proof. intros (r & Hr & He). exists r. split; [set_solver | exact He]. Qed.

(** What the gateway appends to the log, and whether it holds an error
    record. *)
Lemma run_logs env ydl url (opts : dict) download w :
  ∃ l, logs (run_yt_dlp_operation env ydl url opts download w).2 = logs w ++ l
       ∧ match library_outcome env ydl url opts download w with
         | None => has_error l
         | Some (inl (BaseExc _)) => no_error l
         | Some (inl _) => has_error l
         | Some (inr _) => no_error l
         end.
Proof.
  rewrite run_yt_dlp_operation_unfold. unfold library_outcome.
  destruct (stage_cookies env opts w) as [[e|final] w1] eqn:Hs; cbv zeta; cbn [snd].
  - destruct (stage_cookies_raises env opts w e w1 Hs) as (_ & _ & m & ->).
    eexists. split; [reflexivity |].
    exists (LogCookieWriteFailed m). split; [set_solver | reflexivity].
  - destruct (stage_cookies_logs_no_error env opts final w w1 Hs) as (l1 & Hl1 & Hn1).
    unfold try_except.
    destruct (try_body_logs ydl url (drop_verbose final) download w1) as (l2 & Hl2 & Hn2).
    destruct (try_body ydl url (drop_verbose final) download w1) as [[e|r] w2]; simpl in *.
    + destruct e as [m|m|m|m]; simpl;
        match goal with |- context [cleanup _ _ ?w3] =>
          destruct (cleanup_logs_no_error env (drop_verbose final) w3) as (l3 & -> & Hn3)
        end; simpl; rewrite Hl2, Hl1.
      * exists (l1 ++ l2 ++ [LogDownloadError url m] ++ l3).
        split; [now rewrite <- !app_assoc |].
        apply has_error_app_r, has_error_app_r, has_error_app_l.
        exists (LogDownloadError url m). split; [set_solver | reflexivity].
      * exists (l1 ++ l2 ++ [LogExtractorError url m] ++ l3).
        split; [now rewrite <- !app_assoc |].
        apply has_error_app_r, has_error_app_r, has_error_app_l.
        exists (LogExtractorError url m). split; [set_solver | reflexivity].
      * exists (l1 ++ l2 ++ [LogUnexpected url m] ++ l3).
        split; [now rewrite <- !app_assoc |].
        apply has_error_app_r, has_error_app_r, has_error_app_l.
        exists (LogUnexpected url m). split; [set_solver | reflexivity].
      * exists (l1 ++ l2 ++ l3). split; [now rewrite <- !app_assoc |].
        unfold no_error in *. rewrite !Forall_app. auto.
    + destruct (cleanup_logs_no_error env (drop_verbose final) w2) as (l3 & -> & Hn3).
      rewrite Hl2, Hl1.
      exists (l1 ++ l2 ++ l3). split; [now rewrite <- !app_assoc |].
      unfold no_error in *. rewrite !Forall_app. auto.
Qed.

(** How the outcome of the gateway reflects the outcome of the [with]
    block. *)
Lemma run_outcome_inv env ydl url (opts : dict) download w :
  match (run_yt_dlp_operation env ydl url opts download w).1 with
  | inr r => library_outcome env ydl url opts download w = Some (inr r)
  | inl (Http h) =>
      library_outcome env ydl url opts download w = None
      ∨ ∃ e, library_outcome env ydl url opts download w = Some (inl e)
             ∧ ∀ m, e ≠ BaseExc m
  | inl (BaseException m) =>
      library_outcome env ydl url opts download w = Some (inl (BaseExc m))
  | inl (OverflowError _) => True
  end.
Proof.
  rewrite run_yt_dlp_operation_unfold. unfold library_outcome.
  destruct (stage_cookies env opts w) as [[e|final] w1] eqn:Hs; cbv zeta; cbn [fst].
  - destruct (stage_cookies_raises env opts w e w1 Hs) as (-> & _). now left.
  - destruct (cleanup_raises final) as [x|] eqn:Hc.
    + unfold cleanup_raises in Hc.
      destruct (final !! "cookiefile") as [[b|z|p]|]; try discriminate.
      destruct (fd_in_range z); [discriminate |]. now injection Hc as <-.
    + rewrite guarded_outcome.
      destruct (try_body ydl url (drop_verbose final) download w1) as [[e|r] w2];
        cbn [fst]; [| reflexivity].
      destruct e as [m|m|m|m]; simpl; try reflexivity;
        right; eexists; (split; [reflexivity | discriminate]).
Qed.

(** X13: the gateway only appends to the log, and what it appends contains
    an error record exactly when the staging step failed or the [with] block
    raised an [Exception].  So every HTTP exception that reaches the client
    is logged as an error on the server, a call that returns a response logs
    none (a failed removal of the staged file is a warning), and an exception
    that is not an [Exception] passes unlogged. *)
Theorem error_logged_iff_handled env ydl url (opts : dict) download w :
  ∃ l, logs (run_yt_dlp_operation env ydl url opts download w).2 = logs w ++ l
       ∧ (has_error l ↔
          library_outcome env ydl url opts download w = None
          ∨ ∃ e, library_outcome env ydl url opts download w = Some (inl e)
                 ∧ ∀ m, e ≠ BaseExc m)
       ∧ (∀ h, (run_yt_dlp_operation env ydl url opts download w).1 = inl (Http h) →
               has_error l)
       ∧ (∀ r, (run_yt_dlp_operation env ydl url opts download w).1 = inr r →
               ¬ has_error l)
       ∧ (∀ m, (run_yt_dlp_operation env ydl url opts download w).1
                 = inl (BaseException m) → ¬ has_error l).
Proof.
  destruct (run_logs env ydl url opts download w) as (l & Hl & Hcase).
  pose proof (run_outcome_inv env ydl url opts download w) as Hinv.
  assert (Hiff : has_error l ↔
            library_outcome env ydl url opts download w = None
            ∨ ∃ e, library_outcome env ydl url opts download w = Some (inl e)
                   ∧ ∀ m, e ≠ BaseExc m).
  { destruct (library_outcome env ydl url opts download w) as [[e|r]|].
    - destruct e as [m|m|m|m].
      + split; [intros _; right; eexists; split; [reflexivity | discriminate] | auto].
      + split; [intros _; right; eexists; split; [reflexivity | discriminate] | auto].
      + split; [intros _; right; eexists; split; [reflexivity | discriminate] | auto].
      + split; [intros He; now apply no_error_has_error in Hcase |].
        intros [[=] | (e & [= <-] & Hne)]. now destruct (Hne m).
    - split; [intros He; now apply no_error_has_error in Hcase |].
      intros [[=] | (e & [=] & _)].
    - split; [now left | auto]. }
  exists l. split; [exact Hl |]. split; [exact Hiff |].
  split; [| split].
  - intros h Hh. rewrite Hh in Hinv. now apply Hiff.
  - intros r Hr. rewrite Hr in Hinv. rewrite Hinv in Hcase.
    now apply no_error_has_error.
  - intros m Hm. rewrite Hm in Hinv. rewrite Hinv in Hcase.
    now apply no_error_has_error.
Qed.

(** ** The [with] block as a whole *)



